(** * SXA backend: scoring, insights and persistence contracts

    A shallow embedding of [src/backend.js] (the Express server of the
    Sport eXperience Analyzer) and the properties its specification
    states about it.

    Modelling conventions.
    - A JavaScript number is an exact rational ([Q]).  Every number on
      the paths below is a small decimal; IEEE-754 rounding error,
      overflow and NaN are outside the model.  The one place where the
      binary64 value itself matters (the "sum to 1.0 within a tolerance"
      invariant of the weight table) is re-evaluated on primitive
      floats in [Module Binary64].
    - [Math.round] takes a number to the nearest integer, ties towards
      plus infinity; its result is an integer ([Z]).
    - A JavaScript object literal is an association list of its own
      properties in source order; reading a property that is not an
      own property falls through to [Object.prototype].
    - [undefined]/[null] are [None]; the operator [||] is modelled with
      the truthiness of each type it is applied to.
    - Code that can throw returns an [Outcome].
    - [Math.random], [uuidv4], the clock behind [datetime('now')] and
      storage faults are inputs of the functions that use them. *)

From Stdlib Require Import QArith Qround Lqa ZArith Floats.
From stdpp Require Import gmap strings list sorting.

Local Open Scope string_scope.
Local Open Scope list_scope.
Local Open Scope Z_scope.

(** ** JavaScript values *)

Module Js.

(** A thrown exception: the [TypeError] of a property read on
    [undefined], or the [SqliteError] of a failed statement. *)
Inductive Error : Type :=
| TypeError (message : string)
| SqliteError (message : string).

Inductive Outcome (A : Type) : Type :=
| Return (a : A)
| Throw (e : Error).
Arguments Return {A} a.
Arguments Throw {A} e.

Definition bind {A B} (m : Outcome A) (k : A -> Outcome B) : Outcome B :=
  match m with
  | Return a => k a
  | Throw e => Throw e
  end.

Definition error_message (e : Error) : string :=
  match e with TypeError m | SqliteError m => m end.

(** [Math.round]: nearest integer, halves go up. *)
Definition Math_round (x : Q) : Z := Qfloor (x + (1 # 2))%Q.

Definition ltb (x y : Q) : bool := negb (Qle_bool y x).
Definition gtb (x y : Q) : bool := ltb y x.
Definition geb (x y : Q) : bool := Qle_bool y x.

(** Truthiness of a number and of a string. *)
Definition truthy_number (x : Q) : bool := negb (Qeq_bool x 0).
Definition truthy_string (s : string) : bool := negb (String.eqb s "").

(** [x || d] on an optional number / an optional string. *)
Definition number_or (x : option Q) (d : Q) : Q :=
  match x with
  | Some v => if truthy_number v then v else d
  | None => d
  end.

(** [x || null] *)
Definition number_or_null (x : option Q) : option Q :=
  match x with
  | Some v => if truthy_number v then Some v else None
  | None => None
  end.

Definition string_or_null (x : option string) : option string :=
  match x with
  | Some s => if truthy_string s then Some s else None
  | None => None
  end.

(** Own properties of an object literal, in source order. *)
Definition Object (V : Type) : Type := list (string * V).

Definition own_property {V} (o : Object V) (k : string) : option V :=
  match List.find (fun kv => String.eqb (fst kv) k) o with
  | Some kv => Some (snd kv)
  | None => None
  end.

(** The property names every ordinary object inherits from
    [Object.prototype].  Each of them reads as a function, except
    [__proto__], which reads as the prototype object itself; all of
    them are truthy and none has a [weights] property. *)
Definition Object_prototype_keys : list string :=
  [ "constructor"; "__defineGetter__"; "__defineSetter__"; "hasOwnProperty";
    "__lookupGetter__"; "__lookupSetter__"; "isPrototypeOf";
    "propertyIsEnumerable"; "toString"; "valueOf"; "__proto__";
    "toLocaleString" ].

Definition inherited (k : string) : bool :=
  existsb (String.eqb k) Object_prototype_keys.

End Js.

Notation "x <- m ;; k" := (Js.bind m (fun x => k))
  (at level 100, m at next level, right associativity, only parsing).

(** ** The sport-pattern registry (backend.js, lines 128-141) *)

Definition Weights : Type := Js.Object Q.

Record SportPattern : Type := mkPattern {
  name : string;
  weights : Weights;
}.

Definition mkWeights (f p c b t : Q) : Weights :=
  [ ("form", f); ("power", p); ("consistency", c); ("balance", b); ("timing", t) ].

Definition SPORT_PATTERNS : Js.Object SportPattern :=
  [ ("long-jump",  mkPattern "Long Jump"           (mkWeights 0.30 0.20 0.20 0.15 0.15));
    ("high-jump",  mkPattern "High Jump"           (mkWeights 0.35 0.20 0.18 0.12 0.15));
    ("sprinting",  mkPattern "Sprinting"           (mkWeights 0.25 0.25 0.25 0.10 0.15));
    ("basketball", mkPattern "Basketball Shooting" (mkWeights 0.35 0.15 0.25 0.15 0.10));
    ("soccer",     mkPattern "Soccer Kicking"      (mkWeights 0.30 0.20 0.20 0.15 0.15));
    ("tennis",     mkPattern "Tennis Serve"        (mkWeights 0.32 0.18 0.22 0.13 0.15));
    ("running",    mkPattern "Distance Running"    (mkWeights 0.25 0.20 0.30 0.15 0.10));
    ("golf",       mkPattern "Golf Swing"          (mkWeights 0.35 0.20 0.25 0.12 0.08));
    ("yoga",       mkPattern "Yoga"                (mkWeights 0.40 0.05 0.20 0.30 0.05));
    ("jumping",    mkPattern "Jump Training"       (mkWeights 0.25 0.35 0.20 0.12 0.08));
    ("swimming",   mkPattern "Swimming"            (mkWeights 0.35 0.20 0.25 0.10 0.10));
    ("cycling",    mkPattern "Cycling"             (mkWeights 0.30 0.25 0.25 0.12 0.08)) ].

(** What the expression [SPORT_PATTERNS[key]] evaluates to. *)
Inductive Member : Type :=
| MUndefined
| MPattern (p : SportPattern)
| MInherited (key : string).

Definition SPORT_PATTERNS_get (key : string) : Member :=
  match Js.own_property SPORT_PATTERNS key with
  | Some p => MPattern p
  | None => if Js.inherited key then MInherited key else MUndefined
  end.

Definition truthy_member (m : Member) : bool :=
  match m with
  | MUndefined => false
  | MPattern _ | MInherited _ => true
  end.

(** [a || b] on two such values. *)
Definition member_or (a b : Member) : Member :=
  if truthy_member a then a else b.

(** ** Scores, metrics and the analysis result *)

Record RawScores : Type := mkScores {
  form : Q;
  power : Q;
  consistency : Q;
  balance : Q;
  timing : Q;
}.

(** [Object.entries(rawScores)]: the own properties in insertion order. *)
Definition entries (s : RawScores) : list (string * Q) :=
  [ ("form", form s); ("power", power s); ("consistency", consistency s);
    ("balance", balance s); ("timing", timing s) ].

(** The [metrics] object.  Its JavaScript key [balance] is the field
    [balance_metric] here; [speedIndex] holds the number that the
    one-decimal string produced by [toFixed(1)] denotes. *)
Record Metrics : Type := mkMetrics {
  kneeAngle : Q;
  hipAngle : Q;
  armAngle : Q;
  speedIndex : Q;
  balance_metric : Q;
}.

Record AnalysisResult : Type := mkResult {
  sport : string;
  sportKey : string;
  overall : Z;
  scores : RawScores;
  metrics : Metrics;
  insights : list string;
  frameCount : Z;
}.

(** The eleven values [Math.random()] returns during one call of
    [analyzeVideo], in the order they are drawn. *)
Record Random : Type := mkRandom {
  rnd_form : Q;
  rnd_power : Q;
  rnd_consistency : Q;
  rnd_balance : Q;
  rnd_timing : Q;
  rnd_kneeAngle : Q;
  rnd_hipAngle : Q;
  rnd_armAngle : Q;
  rnd_speedIndex : Q;
  rnd_balance_metric : Q;
  rnd_frameCount : Q;
}.

(** ** generateInsights (backend.js, lines 186-201) *)

Definition MSG_FORM_LOW : string :=
  "Work on joint alignment — your form score indicates suboptimal positioning during key phases.".
Definition MSG_POWER_LOW : string :=
  "Power output is below average for your sport. Add plyometric or resistance exercises.".
Definition MSG_CONSISTENCY_LOW : string :=
  "Movement variability is high. Focus on drilling the same technique repeatedly.".
Definition MSG_BALANCE_LOW : string :=
  "Centre of mass shifts detected. Single-leg balance work can help stabilise your base.".
Definition MSG_TIMING_LOW : string :=
  "Phase timing is off — practice slow-motion drills to reinforce the correct sequence.".
Definition MSG_KNEE_BENT : string :=
  "Knee bend is excessive at key moment. Check your stance width and foot placement.".
Definition MSG_KNEE_STRAIGHT : string :=
  "Legs too straight — increase knee flexion for better shock absorption.".
Definition MSG_FORM_HIGH (sportName : string) : string :=
  "Excellent " +:+ sportName +:+ " form! Maintain this technique under fatigue.".
Definition MSG_CONSISTENCY_HIGH : string :=
  "Highly consistent movement patterns — great for competition repeatability.".

(** [if (c) insights.push(msg)] as a function of the array so far. *)
Definition push_if (c : bool) (msg : string) (insights : list string) : list string :=
  if c then insights ++ [msg] else insights.

(** [insights.slice(0, 5)] *)
Definition slice_0_5 (insights : list string) : list string := take 5 insights.

Definition generateInsights (scores : RawScores) (metrics : Metrics) (sportName : string)
  : list string :=
  let insights := [] in
  let insights := push_if (Js.ltb (form scores) 65) MSG_FORM_LOW insights in
  let insights := push_if (Js.ltb (power scores) 65) MSG_POWER_LOW insights in
  let insights := push_if (Js.ltb (consistency scores) 65) MSG_CONSISTENCY_LOW insights in
  let insights := push_if (Js.ltb (balance scores) 65) MSG_BALANCE_LOW insights in
  let insights := push_if (Js.ltb (timing scores) 65) MSG_TIMING_LOW insights in
  let insights := push_if (Js.ltb (kneeAngle metrics) 80) MSG_KNEE_BENT insights in
  let insights := push_if (Js.gtb (kneeAngle metrics) 160) MSG_KNEE_STRAIGHT insights in
  let insights := push_if (Js.geb (form scores) 80) (MSG_FORM_HIGH sportName) insights in
  let insights := push_if (Js.geb (consistency scores) 80) MSG_CONSISTENCY_HIGH insights in
  slice_0_5 insights.

(** ** analyzeVideo (backend.js, lines 148-184) *)

(** [const { weights } = pattern].  Destructuring [undefined] throws; a
    value inherited from [Object.prototype] has no [weights] property,
    so the binding is [undefined] ([None]). *)
Definition destructure_weights (pattern : Member) : Js.Outcome (option Weights) :=
  match pattern with
  | MPattern p => Js.Return (Some (weights p))
  | MInherited _ => Js.Return None
  | MUndefined =>
      Js.Throw (Js.TypeError
        "Cannot destructure property 'weights' of 'pattern' as it is undefined.")
  end.

(** [pattern.name].  Only read after the weighted sum was computed, so
    only ever on a registry entry; an inherited function answers with
    its own name. *)
Definition pattern_name (pattern : Member) : string :=
  match pattern with
  | MPattern p => name p
  | MInherited k => k
  | MUndefined => "undefined"
  end.

(** [weights[k]], for [k] one of the five dimension names (none of
    them is a member of [Object.prototype]). *)
Definition read_weight (weights : option Weights) (k : string) : Js.Outcome (option Q) :=
  match weights with
  | Some w => Js.Return (Js.own_property w k)
  | None =>
      Js.Throw (Js.TypeError
        ("Cannot read properties of undefined (reading '" +:+ k +:+ "')"))
  end.

(** The callback of [reduce]: [(sum, [k, v]) => sum + v * (weights[k] || 0.2)]. *)
Definition reduce_step (weights : option Weights) (sum : Q) (kv : string * Q)
  : Js.Outcome Q :=
  w <- read_weight weights (fst kv) ;;
  Js.Return (sum + snd kv * Js.number_or w 0.2)%Q.

(** [Object.entries(rawScores).reduce(..., 0)] *)
Definition weighted_sum (weights : option Weights) (rawScores : RawScores) : Js.Outcome Q :=
  fold_left (fun acc kv => sum <- acc ;; reduce_step weights sum kv)
            (entries rawScores) (Js.Return 0%Q).

(** [Math.min(100, Math.max(0, overall))] *)
Definition clamp_0_100 (overall : Z) : Z := Z.min 100 (Z.max 0 overall).

(** Lines 161-163 and 178 for given weights and raw scores. *)
Definition overall_score (weights : option Weights) (rawScores : RawScores) : Js.Outcome Z :=
  sum <- weighted_sum weights rawScores ;;
  Js.Return (clamp_0_100 (Js.Math_round sum)).

(** The number [reduce] arrives at over a weights object. *)
Definition reduced (w : Weights) (s : RawScores) : Q :=
  (0 + form s * Js.number_or (Js.own_property w "form") 0.2
     + power s * Js.number_or (Js.own_property w "power") 0.2
     + consistency s * Js.number_or (Js.own_property w "consistency") 0.2
     + balance s * Js.number_or (Js.own_property w "balance") 0.2
     + timing s * Js.number_or (Js.own_property w "timing") 0.2)%Q.

(** [base + Math.round(Math.random() * spread)] *)
Definition simulated (base : Z) (r : Q) (spread : Z) : Q :=
  inject_Z (base + Js.Math_round (r * inject_Z spread)).

(** [(1.5 + Math.random() * 3.5).toFixed(1)] *)
Definition toFixed_1 (x : Q) : Q := (inject_Z (Js.Math_round (x * 10)) / 10)%Q.

Definition simulate_scores (rnd : Random) : RawScores :=
  {| form        := simulated 60 (rnd_form rnd) 35;
     power       := simulated 55 (rnd_power rnd) 40;
     consistency := simulated 58 (rnd_consistency rnd) 37;
     balance     := simulated 62 (rnd_balance rnd) 33;
     timing      := simulated 57 (rnd_timing rnd) 38 |}.

Definition simulate_metrics (rnd : Random) : Metrics :=
  {| kneeAngle      := simulated 75 (rnd_kneeAngle rnd) 30;
     hipAngle       := simulated 155 (rnd_hipAngle rnd) 40;
     armAngle       := simulated 70 (rnd_armAngle rnd) 60;
     speedIndex     := toFixed_1 (1.5 + rnd_speedIndex rnd * 3.5);
     balance_metric := simulated 60 (rnd_balance_metric rnd) 35 |}.

(** The body of [analyzeVideo] once the raw scores and the metrics are
    known; [analyzeVideo] itself draws them from [Math.random]. *)
Definition analyze (sportKey : string) (rawScores : RawScores) (metrics : Metrics)
    (frameCount : Z) : Js.Outcome AnalysisResult :=
  let pattern := member_or (SPORT_PATTERNS_get sportKey) (SPORT_PATTERNS_get "running") in
  weights <- destructure_weights pattern ;;
  sum <- weighted_sum weights rawScores ;;
  let overall := Js.Math_round sum in
  let insights := generateInsights rawScores metrics (pattern_name pattern) in
  Js.Return
    {| sport      := pattern_name pattern;
       sportKey   := sportKey;
       overall    := clamp_0_100 overall;
       scores     := rawScores;
       metrics    := metrics;
       insights   := insights;
       frameCount := frameCount |}.

Definition analyzeVideo (sportKey : string) (filePath : option string) (rnd : Random)
  : Js.Outcome AnalysisResult :=
  analyze sportKey (simulate_scores rnd) (simulate_metrics rnd)
          (180 + Js.Math_round (rnd_frameCount rnd * 120)).

(** ** The SQLite database (backend.js, lines 58-93)

    A timestamp is the number of seconds [datetime('now')] stands for:
    the column holds the text [YYYY-MM-DD HH:MM:SS], whose order as text
    is the order of these numbers, and which has a resolution of one
    second.  The JSON text columns hold the value they serialise
    ([JSON.parse] in [parseSession] undoes [JSON.stringify]). *)

Definition Timestamp : Type := Z.

Module Athlete.

(** A row of [athletes]; the primary key [id] is the key of the table. *)
Record Row : Type := mkRow {
  name : string;
  age : option Q;
  height_cm : option Q;
  weight_kg : option Q;
  sport : option string;
  level : option string;
  created_at : Timestamp;
  updated_at : Timestamp;
}.

(** [INSERT INTO athletes (...) VALUES (..., datetime('now'))
     ON CONFLICT(id) DO UPDATE SET ..., updated_at = datetime('now')].
    A new row takes the column default [datetime('now')] for
    [created_at]; the update leaves that column alone. *)
Definition upsert (now : Timestamp) (id name : string) (age height weight : option Q)
    (sport level : option string) (table : gmap string Row) : gmap string Row :=
  match table !! id with
  | None =>
      <[id := mkRow name age height weight sport level now now]> table
  | Some old =>
      <[id := mkRow name age height weight sport level (created_at old) now]> table
  end.

End Athlete.

Module Session.

Record Row : Type := mkRow {
  id : string;
  athlete_id : option string;
  sport : string;
  overall : Z;
  scores : RawScores;
  metrics : Metrics;
  insights : list string;
  file_path : option string;
  frame_count : Z;
  created_at : Timestamp;
}.

(** [INSERT INTO sessions (...) VALUES (...)]: [id] is the primary key,
    [created_at] takes its default.  Rows are kept in insertion order. *)
Definition insert (now : Timestamp) (id : string) (athlete_id : option string)
    (sport : string) (overall : Z) (scores : RawScores) (metrics : Metrics)
    (insights : list string) (file_path : option string) (frame_count : Z)
    (table : list Row) : list Row + string :=
  if existsb (fun r => String.eqb (Session.id r) id) table
  then inr "UNIQUE constraint failed: sessions.id"
  else inl (table ++ [mkRow id athlete_id sport overall scores metrics insights
                            file_path frame_count now]).

(** [ORDER BY created_at DESC].  SQLite leaves the order of rows with
    equal keys open; the model sorts with a merge sort. *)
Definition newer_first (a b : Row) : Prop := created_at b <= created_at a.

#[global] Instance newer_first_dec : RelDecision newer_first.
Proof. intros a b. unfold newer_first. apply _. Defined.

Definition order_by_created_at_desc (rows : list Row) : list Row :=
  merge_sort newer_first rows.

(** The number bound to [LIMIT ?]: an integer, or a number that is not
    one (a fraction, [NaN], an infinity). *)
Inductive Bound : Type :=
| Integral (n : Z)
| NonIntegral.

(** The number reaches SQLite as a REAL (a JavaScript number is bound
    as a double).  SQLite takes a REAL for an integer only when it is
    integral and lies strictly between the least and the greatest
    64-bit integer. *)
Definition accepted (n : Z) : bool := (- 2 ^ 63 <? n) && (n <? 2 ^ 63 - 1).

(** The first [n] rows; a negative [n] means no upper bound. *)
Definition first_rows (n : Z) (rows : list Row) : list Row :=
  if n <? 0 then rows else take (Z.to_nat n) rows.

(** [LIMIT ?]: the rows it lets through, or the message of the error
    the statement fails with when the bound is not an accepted
    integer. *)
Definition sql_limit (bound : Bound) (rows : list Row) : list Row + string :=
  match bound with
  | Integral n =>
      if accepted n then inl (first_rows n rows) else inr "datatype mismatch"
  | NonIntegral => inr "datatype mismatch"
  end.

(** [WHERE athlete_id = ?]: a [NULL] column matches nothing. *)
Definition where_athlete_id (a : string) (rows : list Row) : list Row :=
  List.filter (fun r => match athlete_id r with
                        | Some x => String.eqb x a
                        | None => false
                        end) rows.

(** [SELECT * FROM sessions WHERE id = ?] *)
Definition select_by_id (i : string) (rows : list Row) : option Row :=
  List.find (fun r => String.eqb (id r) i) rows.

End Session.

Record Database : Type := mkDatabase {
  athletes : gmap string Athlete.Row;
  sessions : list Session.Row;
}.

(** ** The Express application (backend.js, lines 206-363) *)

(** The state of the server process: whether [multer] could be loaded,
    the database handle ([null] when [better-sqlite3] is missing) and
    what was written to the console. *)
Record Server : Type := mkServer {
  multer : bool;
  db : option Database;
  console : list string;
}.

(** What the surroundings contribute to one request: the identifier
    [uuidv4()] returns, the clock, the random draws, and the error the
    storage engine raises on a write, if it raises one. *)
Record Env : Type := mkEnv {
  uuid : string;
  now : Timestamp;
  random : Random;
  storage_fault : option string;
}.

Inductive Body : Type :=
| BAnalysis (sessionId : string) (result : AnalysisResult)
| BError (error : string)
| BSaved (id : string) (message : string)
| BAthlete (id : string) (row : Athlete.Row)
| BSession (row : Session.Row)
| BSessions (rows : list Session.Row).

Record Response : Type := mkResponse {
  status : Z;
  body : Body;
}.

(** [res.json(b)] and [res.status(s).json({ error })] *)
Definition json (b : Body) : Response := mkResponse 200 b.
Definition error (s : Z) (message : string) : Response := mkResponse s (BError message).

Definition log (line : string) (srv : Server) : Server :=
  mkServer (multer srv) (db srv) (console srv ++ [line]).

Definition with_db (d : Database) (srv : Server) : Server :=
  mkServer (multer srv) (Some d) (console srv).

(** The error-handling middleware (lines 331-337) for a thrown error. *)
Definition error_handler (e : Js.Error) (srv : Server) : Response * Server :=
  let message := Js.error_message e in
  (error 500 (if Js.truthy_string message then message else "Internal server error."),
   log ("Unhandled error: " +:+ message) srv).

(** [requireMulter] (lines 351-356).  Its 503 answer asks for a server
    without multer, which no loaded module is: see [load] below. *)
Definition requireMulter (srv : Server) (next : Response * Server) : Response * Server :=
  if multer srv then next
  else (error 503 "File upload unavailable. Install multer: npm install multer", srv).

Definition requireDB (srv : Server) (next : Database -> Response * Server)
  : Response * Server :=
  match db srv with
  | Some d => next d
  | None =>
      (error 503 "Database unavailable. Install better-sqlite3: npm install better-sqlite3",
       srv)
  end.

(** *** POST /api/analyze (lines 247-278) *)

Record AnalyzeRequest : Type := mkAnalyzeRequest {
  body_sport : option string;
  file : option string;          (* req.file.path, when a video was uploaded *)
  body_filePath : option string;
  body_athleteId : option string;
}.

(** [req.body.sport && SPORT_PATTERNS[req.body.sport] ? req.body.sport : 'running'] *)
Definition request_sportKey (req : AnalyzeRequest) : string :=
  match body_sport req with
  | Some s =>
      if Js.truthy_string s && truthy_member (SPORT_PATTERNS_get s) then s else "running"
  | None => "running"
  end.

(** [req.file ? req.file.path : req.body.filePath || null] *)
Definition request_filePath (req : AnalyzeRequest) : option string :=
  match file req with
  | Some p => Some p
  | None => Js.string_or_null (body_filePath req)
  end.

(** [db.prepare(`INSERT INTO sessions ...`).run(...)]: the rows of
    [sessions] after the statement, or the message of the error it
    throws. *)
Definition run_insert (env : Env) (d : Database) (sessionId : string)
    (athleteId filePath : option string) (result : AnalysisResult)
  : list Session.Row + string :=
  match storage_fault env with
  | Some message => inr message
  | None =>
      Session.insert (now env) sessionId athleteId (sport result) (overall result)
        (scores result) (metrics result) (insights result) filePath
        (frameCount result) (sessions d)
  end.

(** The [try { ... } catch (e) { console.error('DB insert failed:', e.message) }]
    block for a database [d]. *)
Definition persist (env : Env) (d : Database) (sessionId : string)
    (athleteId filePath : option string) (result : AnalysisResult) (srv : Server) : Server :=
  match run_insert env d sessionId athleteId filePath result with
  | inl rows => with_db (mkDatabase (athletes d) rows) srv
  | inr message => log ("DB insert failed: " +:+ message) srv
  end.

Definition post_analyze (env : Env) (srv : Server) (req : AnalyzeRequest)
  : Response * Server :=
  requireMulter srv
    (let sportKey := request_sportKey req in
     let filePath := request_filePath req in
     let athleteId := Js.string_or_null (body_athleteId req) in
     match analyzeVideo sportKey filePath (random env) with
     | Js.Throw e => error_handler e srv
     | Js.Return result =>
         let sessionId := uuid env in
         let srv' :=
           match db srv with
           | Some d => persist env d sessionId athleteId filePath result srv
           | None => srv
           end in
         (json (BAnalysis sessionId result), srv')
     end).

(** *** GET /api/sessions/:id (lines 281-285) *)

Definition get_session (srv : Server) (id : string) : Response * Server :=
  requireDB srv (fun d =>
    match Session.select_by_id id (sessions d) with
    | Some row => (json (BSession row), srv)
    | None => (error 404 "Session not found.", srv)
    end).

(** *** GET /api/sessions (lines 288-294)

    [query_limit] is the number [+limit] evaluates to when the query
    carries a [limit] parameter.  The handler does not catch: a
    statement that fails goes to the error handler. *)

Record SessionsQuery : Type := mkSessionsQuery {
  query_athleteId : option string;
  query_limit : option Session.Bound;
}.

Definition get_sessions (srv : Server) (query : SessionsQuery) : Response * Server :=
  requireDB srv (fun d =>
    let athleteId := query_athleteId query in
    let limit := default (Session.Integral 20) (query_limit query) in
    let rows :=
      match Js.string_or_null athleteId with
      | Some a =>
          Session.sql_limit limit
            (Session.order_by_created_at_desc (Session.where_athlete_id a (sessions d)))
      | None =>
          Session.sql_limit limit (Session.order_by_created_at_desc (sessions d))
      end in
    match rows with
    | inl rows => (json (BSessions rows), srv)
    | inr message => error_handler (Js.SqliteError message) srv
    end).

(** *** POST /api/profile (lines 297-316) *)

Record ProfileRequest : Type := mkProfileRequest {
  profile_name : option string;
  profile_age : option Q;
  profile_height : option Q;
  profile_weight : option Q;
  profile_sport : option string;
  profile_level : option string;
  profile_id : option string;
}.

Definition post_profile (env : Env) (srv : Server) (req : ProfileRequest)
  : Response * Server :=
  requireDB srv (fun d =>
    match Js.string_or_null (profile_name req) with
    | None => (error 400 "name is required.", srv)
    | Some name =>
        let athleteId := default (uuid env) (Js.string_or_null (profile_id req)) in
        match storage_fault env with
        | Some message => error_handler (Js.SqliteError message) srv
        | None =>
            let table :=
              Athlete.upsert (now env) athleteId name
                (Js.number_or_null (profile_age req))
                (Js.number_or_null (profile_height req))
                (Js.number_or_null (profile_weight req))
                (Js.string_or_null (profile_sport req))
                (Js.string_or_null (profile_level req))
                (athletes d) in
            (json (BSaved athleteId "Profile saved."),
             with_db (mkDatabase table (sessions d)) srv)
        end
    end).

(** *** GET /api/profile/:id (lines 319-323) *)

Definition get_profile (srv : Server) (id : string) : Response * Server :=
  requireDB srv (fun d =>
    match athletes d !! id with
    | Some row => (json (BAthlete id row), srv)
    | None => (error 404 "Athlete not found.", srv)
    end).

(** ** The weight table on IEEE-754 binary64

    The weights are decimal literals, each read as the nearest double.
    A correctly rounded division of two small integers yields that same
    double, which is how a rational is taken to its double here. *)

Module Binary64.

Definition of_Z (z : Z) : float :=
  match z with
  | Z0 => PrimFloat.zero
  | Zpos p => PrimFloat.of_uint63 (Uint63.of_Z (Zpos p))
  | Zneg p => PrimFloat.opp (PrimFloat.of_uint63 (Uint63.of_Z (Zpos p)))
  end.

Definition of_Q (q : Q) : float :=
  PrimFloat.div (of_Z (Qnum q)) (of_Z (Zpos (Qden q))).

(** The sum of the weights of an object, added left to right from 0. *)
Definition weight_sum (w : Weights) : float :=
  fold_left (fun acc kv => PrimFloat.add acc (of_Q (snd kv))) w PrimFloat.zero.

(** [|x - 1| <= 2^-50] *)
Definition near_one (x : float) : bool :=
  PrimFloat.leb (PrimFloat.abs (PrimFloat.sub x PrimFloat.one)) 0x1p-50%float.

Definition nonnegative (x : float) : bool := PrimFloat.leb PrimFloat.zero x.

End Binary64.

(** ** The specification's formulations *)

(** The weighted aggregation as the specification words it: the sum
    over the five dimensions of the raw score times the weight, a
    dimension without a weight entry taking the weight 0.2, rounded and
    then clamped to [0,100]. *)
Definition spec_weight (w : Weights) (d : string) : Q :=
  default 0.2%Q (Js.own_property w d).

Definition spec_overall (w : Weights) (s : RawScores) : Z :=
  let sum := (form s * spec_weight w "form" + power s * spec_weight w "power"
              + consistency s * spec_weight w "consistency"
              + balance s * spec_weight w "balance"
              + timing s * spec_weight w "timing")%Q in
  Z.min 100 (Z.max 0 (Js.Math_round sum)).

Definition dimensions : list string :=
  ["form"; "power"; "consistency"; "balance"; "timing"].

(** The weights of an object, added up exactly. *)
Definition weight_total (w : Weights) : Q :=
  fold_left (fun acc kv => (acc + snd kv)%Q) w 0%Q.

(** What the data-quality invariant asks of one weight vector: the five
    dimensions, no negative weight, and a sum of 1 (exactly on the
    decimal values, and within 2^-50 once each weight is the double the
    literal denotes and the sum is taken in binary64). *)
Definition well_weighted (w : Weights) : Prop :=
  map fst w = dimensions /\
  Forall (fun kv => (0 <= snd kv)%Q) w /\
  (weight_total w == 1)%Q /\
  forallb (fun kv => Binary64.nonnegative (Binary64.of_Q (snd kv))) w = true /\
  Binary64.near_one (Binary64.weight_sum w) = true.

(** The rule table of the insight generator, in priority order. *)
Definition rule_table (s : RawScores) (m : Metrics) (sportName : string)
  : list (Prop * string) :=
  [ ((form s < 65)%Q,         MSG_FORM_LOW);
    ((power s < 65)%Q,        MSG_POWER_LOW);
    ((consistency s < 65)%Q,  MSG_CONSISTENCY_LOW);
    ((balance s < 65)%Q,      MSG_BALANCE_LOW);
    ((timing s < 65)%Q,       MSG_TIMING_LOW);
    ((kneeAngle m < 80)%Q,    MSG_KNEE_BENT);
    ((160 < kneeAngle m)%Q,   MSG_KNEE_STRAIGHT);
    ((80 <= form s)%Q,        MSG_FORM_HIGH sportName);
    ((80 <= consistency s)%Q, MSG_CONSISTENCY_HIGH) ].

(** [produced rules msgs]: going through [rules] in order, each rule
    whose condition holds contributes its message, and nothing else is
    contributed. *)
Inductive produced : list (Prop * string) -> list string -> Prop :=
| produced_nil : produced [] []
| produced_fire (P : Prop) msg rules msgs :
    P -> produced rules msgs -> produced ((P, msg) :: rules) (msg :: msgs)
| produced_skip (P : Prop) msg rules msgs :
    ~ P -> produced rules msgs -> produced ((P, msg) :: rules) msgs.

(** The nine tests of [generateInsights] with their messages, and the
    messages of those that succeed. *)
Definition tests (s : RawScores) (m : Metrics) (sportName : string)
  : list (bool * string) :=
  [ (Js.ltb (form s) 65,        MSG_FORM_LOW);
    (Js.ltb (power s) 65,       MSG_POWER_LOW);
    (Js.ltb (consistency s) 65, MSG_CONSISTENCY_LOW);
    (Js.ltb (balance s) 65,     MSG_BALANCE_LOW);
    (Js.ltb (timing s) 65,      MSG_TIMING_LOW);
    (Js.ltb (kneeAngle m) 80,   MSG_KNEE_BENT);
    (Js.gtb (kneeAngle m) 160,  MSG_KNEE_STRAIGHT);
    (Js.geb (form s) 80,        MSG_FORM_HIGH sportName);
    (Js.geb (consistency s) 80, MSG_CONSISTENCY_HIGH) ].

Definition fired (l : list (bool * string)) : list string :=
  map snd (List.filter fst l).

(** The scenario "knee angle 70 gives the knee-bend warning", read for
    every scores and metrics input. *)
Definition knee_warning_claim : Prop :=
  forall (s : RawScores) (m : Metrics) (sportName : string),
    (kneeAngle m == 70)%Q ->
    In MSG_KNEE_BENT (generateInsights s m sportName).

(** All five score cues fire. *)
Definition five_cues (s : RawScores) : Prop :=
  (form s < 65 /\ power s < 65 /\ consistency s < 65 /\ balance s < 65 /\ timing s < 65)%Q.

(** The setting of the upsert property: a database without a profile
    [id], and two accepted requests for that [id], the second with a
    different age, both written without a storage fault. *)
Definition upsert_twice_setting (srv : Server) (d : Database) (env1 env2 : Env)
    (id name1 name2 : string) (req1 req2 : ProfileRequest) : Prop :=
  db srv = Some d /\ athletes d !! id = None /\
  Js.string_or_null (profile_id req1) = Some id /\
  Js.string_or_null (profile_id req2) = Some id /\
  Js.string_or_null (profile_name req1) = Some name1 /\
  Js.string_or_null (profile_name req2) = Some name2 /\
  storage_fault env1 = None /\ storage_fault env2 = None /\
  profile_age req2 <> profile_age req1.

(** The profile stored under [id] after the two requests. *)
Definition stored_after (srv : Server) (env1 env2 : Env) (id : string)
    (req1 req2 : ProfileRequest) : option Athlete.Row :=
  let srv1 := snd (post_profile env1 srv req1) in
  let srv2 := snd (post_profile env2 srv1 req2) in
  match db srv2 with
  | Some d2 => athletes d2 !! id
  | None => None
  end.

(** The upsert property as the specification states it: the stored
    fields are the fields of the second request, an omitted one being
    null. *)
Definition upsert_twice_claim : Prop :=
  forall srv d env1 env2 id name1 name2 req1 req2,
    upsert_twice_setting srv d env1 env2 id name1 name2 req1 req2 ->
    exists row,
      stored_after srv env1 env2 id req1 req2 = Some row /\
      Athlete.age row = profile_age req2 /\
      Athlete.created_at row = now env1 /\
      Athlete.updated_at row = now env2 /\
      Athlete.name row = name2 /\
      Athlete.height_cm row = profile_height req2 /\
      Athlete.weight_kg row = profile_weight req2 /\
      Athlete.sport row = profile_sport req2 /\
      Athlete.level row = profile_level req2.

(** Creation times strictly decreasing along the list. *)
Definition strictly_newer_first (a b : Session.Row) : Prop :=
  Session.created_at b < Session.created_at a.

(** The rows a session listing answers with, when it answers with rows. *)
Definition listed (srv : Server) (query : SessionsQuery) : option (list Session.Row) :=
  match body (fst (get_sessions srv query)) with
  | BSessions rows => Some rows
  | _ => None
  end.

(** The limit of a listing: the number of the query, 20 by default. *)
Definition limit_of (query : SessionsQuery) : Session.Bound :=
  default (Session.Integral 20) (query_limit query).

(** At most [limit] rows, for a limit that is an integer. *)
Definition at_most (limit : Session.Bound) (rows : list Session.Row) : Prop :=
  match limit with
  | Session.Integral n => Z.of_nat (length rows) <= n
  | Session.NonIntegral => True
  end.

(** The listing property as the specification states it. *)
Definition sessions_list_claim : Prop :=
  forall srv d query,
    db srv = Some d ->
    exists rows,
      listed srv query = Some rows /\
      at_most (limit_of query) rows /\
      StronglySorted strictly_newer_first rows /\
      (forall a, query_athleteId query = Some a ->
                 Forall (fun r => Session.athlete_id r = Some a) rows).

(** ** Concrete inputs *)

Module Sample.

(** Every draw of [Math.random()] is 0. *)
Definition zeros : Random := mkRandom 0 0 0 0 0 0 0 0 0 0 0.

Definition all_60 : RawScores := mkScores 60 60 60 60 60.
Definition all_70 : RawScores := mkScores 70 70 70 70 70.
Definition all_90 : RawScores := mkScores 90 90 90 90 90.
Definition knee_70 : Metrics := mkMetrics 70 170 90 3.1 80.
Definition knee_100 : Metrics := mkMetrics 100 170 90 3.1 80.

(** A server with multer and an empty database. *)
Definition fresh : Server := mkServer true (Some (mkDatabase ∅ [])) [].

Definition yoga_request : AnalyzeRequest :=
  mkAnalyzeRequest (Some "yoga") None None (Some "athlete-1").

Definition toString_request : AnalyzeRequest :=
  mkAnalyzeRequest (Some "toString") None None None.

(** Two analyses within the same second, under different identifiers. *)
Definition first_env : Env := mkEnv "session-1" 1000 zeros None.
Definition second_env : Env := mkEnv "session-2" 1000 zeros None.
Definition after_one : Server := snd (post_analyze first_env fresh yoga_request).
Definition after_two : Server := snd (post_analyze second_env after_one yoga_request).

Definition two_sessions : Database := default (mkDatabase ∅ []) (db after_two).

(** A write that the storage engine rejects. *)
Definition faulty_env : Env := mkEnv "session-3" 1002 zeros (Some "disk I/O error").

(** A profile created with age 24, then sent again with age 0. *)
Definition create_env : Env := mkEnv "unused" 50 zeros None.
Definition update_env : Env := mkEnv "unused" 60 zeros None.
Definition create_request : ProfileRequest :=
  mkProfileRequest (Some "Alex Johnson") (Some 24%Q) (Some 178%Q) (Some 74%Q)
                   (Some "sprinting") (Some "competitive") (Some "athlete-1").
Definition age_0_request : ProfileRequest :=
  mkProfileRequest (Some "Alex Johnson") (Some 0%Q) (Some 178%Q) (Some 74%Q)
                   (Some "sprinting") (Some "competitive") (Some "athlete-1").
Definition age_25_request : ProfileRequest :=
  mkProfileRequest (Some "Alex Johnson") (Some 25%Q) None (Some 74%Q)
                   (Some "sprinting") None (Some "athlete-1").

End Sample.


(** *** Loading the module (lines 36-39, 98-122, 229, 247)

    [upload] is the multer instance, and stays [null] when multer could
    not be required.  The routes of lines 229 and 247 are registered
    with [upload.single('video')], an expression that is evaluated while
    the module loads. *)

Definition upload_single (multer_installed : bool) : Js.Outcome unit :=
  if multer_installed then Js.Return tt
  else Js.Throw (Js.TypeError "Cannot read properties of null (reading 'single')").

(** The server the module leaves behind when it loads, for the database
    handle it opened and the lines it wrote to the console. *)
Definition load (multer_installed : bool) (handle : option Database)
    (written : list string) : Js.Outcome Server :=
  upload_route <- upload_single multer_installed ;;
  analyze_route <- upload_single multer_installed ;;
  Js.Return (mkServer multer_installed handle written).

(** ** Conditions on inputs *)

(** [Math.random()] returns a number of the interval [0,1). *)
Definition unit_interval (r : Q) : Prop := (0 <= r /\ r < 1)%Q.

Definition unit_draws (rnd : Random) : Prop :=
  unit_interval (rnd_form rnd) /\ unit_interval (rnd_power rnd) /\
  unit_interval (rnd_consistency rnd) /\ unit_interval (rnd_balance rnd) /\
  unit_interval (rnd_timing rnd) /\ unit_interval (rnd_kneeAngle rnd) /\
  unit_interval (rnd_hipAngle rnd) /\ unit_interval (rnd_armAngle rnd) /\
  unit_interval (rnd_speedIndex rnd) /\ unit_interval (rnd_balance_metric rnd) /\
  unit_interval (rnd_frameCount rnd).

(** [x] is the integer [n], and [n] lies between [lo] and [hi]. *)
Definition integer_between (lo hi : Z) (x : Q) : Prop :=
  exists n : Z, x = inject_Z n /\ lo <= n <= hi.

(** Every raw score lies between [lo] and [hi]. *)
Definition scores_between (lo hi : Z) (s : RawScores) : Prop :=
  (inject_Z lo <= form s <= inject_Z hi /\
   inject_Z lo <= power s <= inject_Z hi /\
   inject_Z lo <= consistency s <= inject_Z hi /\
   inject_Z lo <= balance s <= inject_Z hi /\
   inject_Z lo <= timing s <= inject_Z hi)%Q.

(** The sport key is a key of the registry, or at least not the name of
    a member of [Object.prototype]. *)
Definition resolves (key : string) : Prop :=
  Js.own_property SPORT_PATTERNS key <> None \/ Js.inherited key = false.

(** The entry the lookup of line 149 arrives at for such a key. *)
Definition resolved (key : string) : SportPattern :=
  match Js.own_property SPORT_PATTERNS key with
  | Some p => p
  | None => mkPattern "Distance Running" (mkWeights 0.25 0.20 0.30 0.15 0.10)
  end.

(** The identifiers of the stored sessions. *)
Definition session_ids (d : Database) : list string := map Session.id (sessions d).

(** The row that [POST /api/analyze] writes for a result. *)
Definition session_row (env : Env) (req : AnalyzeRequest) (result : AnalysisResult)
  : Session.Row :=
  Session.mkRow (uuid env) (Js.string_or_null (body_athleteId req)) (sport result)
    (overall result) (scores result) (metrics result) (insights result)
    (request_filePath req) (frameCount result) (now env).

(** The rows a listing selects from: all sessions, or those of the
    athlete when a non-empty [athleteId] is given. *)
Definition selected (query : SessionsQuery) (d : Database) : list Session.Row :=
  match Js.string_or_null (query_athleteId query) with
  | Some a => Session.where_athlete_id a (sessions d)
  | None => sessions d
  end.

(** The identifier a profile request is stored under: [id || uuidv4()]. *)
Definition profile_key (env : Env) (req : ProfileRequest) : string :=
  default (uuid env) (Js.string_or_null (profile_id req)).

(** The database of a server that has one. *)
Definition database (srv : Server) : Database := default (mkDatabase ∅ []) (db srv).

Module Fixture.

Definition halves : Random :=
  mkRandom 0.5 0.5 0.5 0.5 0.5 0.5 0.5 0.5 0.5 0.5 0.5.

Definition profiled : Server :=
  snd (post_profile Sample.create_env Sample.fresh Sample.create_request).

Definition anonymous_request : ProfileRequest :=
  mkProfileRequest (Some "Sam Lee") None None None None None None.

Definition nameless_request : ProfileRequest :=
  mkProfileRequest (Some "") (Some 30%Q) None None None None (Some "athlete-1").

Definition no_database : Server := mkServer true None [].
End Fixture.
(** * Properties *)

(** ** Comparisons and truthiness *)

Section Comparisons.
Local Open Scope Q_scope.

Lemma ltb_lt (x y : Q) : Js.ltb x y = true <-> x < y.
Proof.
  unfold Js.ltb. rewrite negb_true_iff, <- not_true_iff_false, Qle_bool_iff.
  split; [apply Qnot_le_lt | apply Qlt_not_le].
Qed.

Lemma gtb_gt (x y : Q) : Js.gtb x y = true <-> y < x.
Proof. apply ltb_lt. Qed.

Lemma geb_ge (x y : Q) : Js.geb x y = true <-> y <= x.
Proof. apply Qle_bool_iff. Qed.

Lemma truthy_number_nonzero (x : Q) : Js.truthy_number x = true <-> ~ x == 0.
Proof.
  unfold Js.truthy_number.
  rewrite negb_true_iff, <- not_true_iff_false, Qeq_bool_iff. tauto.
Qed.

End Comparisons.

Lemma truthy_string_nonempty (s : string) : Js.truthy_string s = true <-> s <> "".
Proof.
  unfold Js.truthy_string.
  rewrite negb_true_iff, String.eqb_neq. tauto.
Qed.

(** ** The insight generator *)

Lemma fired_app (l1 l2 : list (bool * string)) :
  fired (l1 ++ l2) = fired l1 ++ fired l2.
Proof. unfold fired. now rewrite List.filter_app, map_app. Qed.

Lemma push_if_fired (c : bool) (msg : string) (l : list (bool * string)) :
  push_if c msg (fired l) = fired (l ++ [(c, msg)]).
Proof. rewrite fired_app. destruct c; simpl; [reflexivity | now rewrite app_nil_r]. Qed.

(** The sequence of conditional pushes builds the messages of the tests
    that succeed; [slice] keeps the first five of them. *)
Lemma generateInsights_fired (s : RawScores) (m : Metrics) (sportName : string) :
  generateInsights s m sportName = take 5 (fired (tests s m sportName)).
Proof.
  unfold generateInsights, slice_0_5.
  change (@nil string) with (fired []).
  now rewrite !push_if_fired.
Qed.

Lemma produced_fired (rules : list (Prop * string)) (l : list (bool * string)) :
  Forall2 (fun r t => (fst t = true <-> fst r) /\ snd r = snd t) rules l ->
  produced rules (fired l).
Proof.
  induction 1 as [| [P msg] [b msg'] rules l [Hb Hmsg] _ IH]; simpl in *.
  - constructor.
  - subst msg'. unfold fired. simpl. destruct b.
    + apply produced_fire; [now apply Hb | exact IH].
    + apply produced_skip; [| exact IH]. intros HP. apply Hb in HP. discriminate.
Qed.

Lemma tests_decide_rules (s : RawScores) (m : Metrics) (sportName : string) :
  Forall2 (fun r t => (fst t = true <-> fst r) /\ snd r = snd t)
          (rule_table s m sportName) (tests s m sportName).
Proof.
  unfold rule_table, tests.
  repeat (constructor; [split; [simpl | reflexivity] |]);
    first [apply ltb_lt | apply gtb_gt | apply geb_ge | constructor].
Qed.

Lemma produced_none (rules : list (Prop * string)) (msgs : list string) :
  produced rules msgs -> Forall (fun r => ~ fst r) rules -> msgs = [].
Proof.
  induction 1 as [| P msg rules msgs HP _ _ | P msg rules msgs _ _ IH]; intros Hall.
  - reflexivity.
  - inversion Hall; subst. simpl in *. contradiction.
  - inversion Hall; subst. now apply IH.
Qed.

Lemma produced_functional (rules : list (Prop * string)) (msgs msgs' : list string) :
  produced rules msgs -> produced rules msgs' -> msgs = msgs'.
Proof.
  intros H. revert msgs'.
  induction H as [| P msg rules msgs HP _ IH | P msg rules msgs HP _ IH];
    intros msgs' H'; inversion H'; subst; try contradiction; try reflexivity.
  - f_equal. now apply IH.
  - now apply IH.
Qed.

(** C2: generateInsights evaluates the nine threshold rules in their
    fixed order, each rule whose condition holds contributing its
    message independently of the others, and returns the first five
    messages so produced; the result therefore never has more than five
    entries, and it is empty when no rule fires. *)
Theorem generateInsights_rules (s : RawScores) (m : Metrics) (sportName : string) :
  length (rule_table s m sportName) = 9%nat /\
  (exists msgs,
      produced (rule_table s m sportName) msgs /\
      generateInsights s m sportName = take 5 msgs) /\
  (forall msgs,
      produced (rule_table s m sportName) msgs ->
      generateInsights s m sportName = take 5 msgs) /\
  (length (generateInsights s m sportName) <= 5)%nat /\
  (Forall (fun r => ~ fst r) (rule_table s m sportName) ->
   generateInsights s m sportName = []).
Proof.
  pose proof (produced_fired _ _ (tests_decide_rules s m sportName)) as Hp.
  pose proof (generateInsights_fired s m sportName) as Hg.
  split; [reflexivity |].
  split; [eauto |].
  split.
  { intros msgs Hm. rewrite Hg. f_equal. eapply produced_functional; eauto. }
  split.
  - rewrite Hg, length_take. lia.
  - intros Hnone. rewrite Hg, (produced_none _ _ Hp Hnone). reflexivity.
Qed.

Lemma generateInsights_rules_witness :
  Forall (fun r => ~ fst r) (rule_table Sample.all_70 Sample.knee_100 "Yoga") /\
  generateInsights Sample.all_70 Sample.knee_100 "Yoga" = [].
Proof.
  assert (Hnone : Forall (fun r => ~ fst r)
                    (rule_table Sample.all_70 Sample.knee_100 "Yoga")).
  { unfold rule_table.
    repeat (apply List.Forall_cons; [| try apply List.Forall_nil]).
    all: cbn; intros H; vm_compute in H; first [discriminate H | now apply H]. }
  split; [exact Hnone |].
  apply (generateInsights_rules Sample.all_70 Sample.knee_100 "Yoga"). exact Hnone.
Defined.

Lemma In_take {A} (x : A) (n : nat) (l : list A) : In x (take n l) -> In x l.
Proof. rewrite <- !list_elem_of_In. apply subseteq_take. Qed.

Lemma In_fired (msg : string) (l : list (bool * string)) :
  In msg (fired l) <-> In (true, msg) l.
Proof.
  unfold fired. rewrite in_map_iff. split.
  - intros [[b msg'] [Heq Hin]]. apply filter_In in Hin as [Hin Hb].
    simpl in *. now subst.
  - intros Hin. exists (true, msg). split; [reflexivity |].
    apply filter_In. now split.
Qed.

(** A message of the result comes from a test that succeeded. *)
Lemma generateInsights_fires (msg : string) (s : RawScores) (m : Metrics) (sportName : string) :
  In msg (generateInsights s m sportName) -> In (true, msg) (tests s m sportName).
Proof. rewrite generateInsights_fired. intros H. now apply In_take, In_fired in H. Qed.

(** The test behind an entry of [tests]. *)
Ltac which_test H :=
  unfold tests in H; simpl in H;
  repeat (destruct H as [H | H]; [apply pair_equal_spec in H as [H ?] |]);
  [.. | contradiction].

Lemma form_cue_fires (s : RawScores) (m : Metrics) (sportName : string) :
  In MSG_FORM_LOW (generateInsights s m sportName) -> (form s < 65)%Q.
Proof.
  intros H. apply generateInsights_fires in H. which_test H;
    try discriminate. now apply ltb_lt.
Qed.

Lemma form_praise_fires (s : RawScores) (m : Metrics) (sportName : string) :
  In (MSG_FORM_HIGH sportName) (generateInsights s m sportName) -> (80 <= form s)%Q.
Proof.
  intros H. apply generateInsights_fires in H. which_test H;
    try discriminate. now apply geb_ge.
Qed.

Lemma consistency_cue_fires (s : RawScores) (m : Metrics) (sportName : string) :
  In MSG_CONSISTENCY_LOW (generateInsights s m sportName) -> (consistency s < 65)%Q.
Proof.
  intros H. apply generateInsights_fires in H. which_test H;
    try discriminate. now apply ltb_lt.
Qed.

Lemma consistency_praise_fires (s : RawScores) (m : Metrics) (sportName : string) :
  In MSG_CONSISTENCY_HIGH (generateInsights s m sportName) -> (80 <= consistency s)%Q.
Proof.
  intros H. apply generateInsights_fires in H. which_test H;
    try discriminate. now apply geb_ge.
Qed.

(** C10: the list returned by generateInsights never holds both cues of
    one dimension: when it holds the joint-alignment cue it does not
    hold the excellent-form praise, and when it holds the
    repetition-drilling cue it does not hold the consistency praise. *)
Theorem cue_and_praise_exclusive (s : RawScores) (m : Metrics) (sportName : string) :
  (In MSG_FORM_LOW (generateInsights s m sportName) ->
   ~ In (MSG_FORM_HIGH sportName) (generateInsights s m sportName)) /\
  (In MSG_CONSISTENCY_LOW (generateInsights s m sportName) ->
   ~ In MSG_CONSISTENCY_HIGH (generateInsights s m sportName)).
Proof.
  split; intros Hlow Hhigh.
  - apply form_cue_fires in Hlow. apply form_praise_fires in Hhigh. lra.
  - apply consistency_cue_fires in Hlow. apply consistency_praise_fires in Hhigh. lra.
Qed.

Lemma cue_and_praise_exclusive_witness :
  In MSG_FORM_LOW (generateInsights Sample.all_60 Sample.knee_70 "Yoga") /\
  ~ In (MSG_FORM_HIGH "Yoga") (generateInsights Sample.all_60 Sample.knee_70 "Yoga") /\
  In MSG_CONSISTENCY_LOW (generateInsights Sample.all_60 Sample.knee_70 "Yoga") /\
  ~ In MSG_CONSISTENCY_HIGH (generateInsights Sample.all_60 Sample.knee_70 "Yoga").
Proof.
  assert (Hform : In MSG_FORM_LOW (generateInsights Sample.all_60 Sample.knee_70 "Yoga"))
    by (left; reflexivity).
  assert (Hcons : In MSG_CONSISTENCY_LOW
                    (generateInsights Sample.all_60 Sample.knee_70 "Yoga"))
    by (right; right; left; reflexivity).
  split; [exact Hform |]. split.
  - apply (cue_and_praise_exclusive Sample.all_60 Sample.knee_70 "Yoga"). exact Hform.
  - split; [exact Hcons |].
    apply (cue_and_praise_exclusive Sample.all_60 Sample.knee_70 "Yoga"). exact Hcons.
Defined.

Lemma generateInsights_five_cues (s : RawScores) (m : Metrics) (sportName : string) :
  five_cues s ->
  generateInsights s m sportName =
    [MSG_FORM_LOW; MSG_POWER_LOW; MSG_CONSISTENCY_LOW; MSG_BALANCE_LOW; MSG_TIMING_LOW].
Proof.
  intros (Hf & Hp & Hc & Hb & Ht).
  rewrite generateInsights_fired. unfold tests, fired.
  apply ltb_lt in Hf, Hp, Hc, Hb, Ht.
  simpl. rewrite Hf, Hp, Hc, Hb, Ht. reflexivity.
Qed.

(** C4 (as stated): with all five scores at 60 the five score cues fill
    the list and the knee-bend warning, sixth in order, is cut off. *)
Lemma knee_warning_truncated : ~ knee_warning_claim.
Proof.
  intros H.
  specialize (H Sample.all_60 Sample.knee_70 "Yoga" ltac:(reflexivity)).
  rewrite generateInsights_five_cues in H
    by (unfold five_cues; simpl; repeat split; reflexivity).
  simpl in H. repeat (destruct H as [H | H]; [discriminate H |]). exact H.
Qed.

(** C4 (amended): for every scores and metrics input with a knee angle
    of 70, the returned list contains the knee-bend warning unless all
    five score rules fire (form, power, consistency, balance and timing
    all below 65); when they all fire the list is the five score cues. *)
Theorem knee_warning_unless_five_cues (s : RawScores) (m : Metrics) (sportName : string) :
  (kneeAngle m == 70)%Q ->
  (~ five_cues s -> In MSG_KNEE_BENT (generateInsights s m sportName)) /\
  (five_cues s -> ~ In MSG_KNEE_BENT (generateInsights s m sportName)).
Proof.
  intros Hknee. split.
  - intros Hnot.
    assert (Hk : Js.ltb (kneeAngle m) 80 = true) by (apply ltb_lt; lra).
    rewrite generateInsights_fired. unfold tests, fired. simpl. rewrite Hk.
    destruct (Js.ltb (form s) 65) eqn:Hf, (Js.ltb (power s) 65) eqn:Hp,
             (Js.ltb (consistency s) 65) eqn:Hc, (Js.ltb (balance s) 65) eqn:Hb,
             (Js.ltb (timing s) 65) eqn:Ht;
      try (simpl; repeat (first [left; reflexivity | right]); fail).
    exfalso. apply Hnot. unfold five_cues. now rewrite <- !ltb_lt.
  - intros Hfive H. rewrite generateInsights_five_cues in H by assumption.
    simpl in H. repeat (destruct H as [H | H]; [discriminate H |]). exact H.
Qed.

Lemma knee_warning_unless_five_cues_witness :
  (kneeAngle Sample.knee_70 == 70)%Q /\
  In MSG_KNEE_BENT (generateInsights Sample.all_90 Sample.knee_70 "Yoga").
Proof.
  split; [reflexivity |].
  apply (knee_warning_unless_five_cues Sample.all_90 Sample.knee_70 "Yoga");
    [reflexivity |].
  unfold five_cues. simpl. intros [H _]. revert H. apply Qle_not_lt. discriminate.
Defined.

(** ** The scoring path *)

Lemma weighted_sum_object (w : Weights) (s : RawScores) :
  weighted_sum (Some w) s = Js.Return (reduced w s).
Proof. reflexivity. Qed.

Lemma weighted_sum_undefined (s : RawScores) :
  weighted_sum None s =
    Js.Throw (Js.TypeError "Cannot read properties of undefined (reading 'form')").
Proof. reflexivity. Qed.

Lemma clamp_0_100_range (z : Z) : 0 <= clamp_0_100 z <= 100.
Proof. unfold clamp_0_100. lia. Qed.

(** [analyze] in terms of [overall_score]. *)
Lemma analyze_overall_score (key : string) (s : RawScores) (m : Metrics) (fc : Z) :
  analyze key s m fc =
    (let pattern := member_or (SPORT_PATTERNS_get key) (SPORT_PATTERNS_get "running") in
     w <- destructure_weights pattern ;;
     z <- overall_score w s ;;
     Js.Return (mkResult (pattern_name pattern) key z s m
                         (generateInsights s m (pattern_name pattern)) fc)).
Proof.
  unfold analyze, overall_score. cbv zeta.
  destruct (destructure_weights _) as [w | e]; [| reflexivity]. simpl.
  destruct (weighted_sum w s); reflexivity.
Qed.

(** C3: for every weights object and every raw scores (whatever the
    weights sum to, and in particular for raw scores within [0,100]),
    the scoring path produces an overall value, and that value is an
    integer between 0 and 100 inclusive; so is the overall of every
    result the analysis returns. *)
Theorem overall_in_range (w : Weights) (s : RawScores) :
  (exists z : Z,
     overall_score (Some w) s = Js.Return z /\
     z = clamp_0_100 (Js.Math_round (reduced w s)) /\
     0 <= z <= 100) /\
  (forall key m fc,
     match analyze key s m fc with
     | Js.Return r => 0 <= overall r <= 100
     | Js.Throw _ => True
     end).
Proof.
  split.
  - exists (clamp_0_100 (Js.Math_round (reduced w s))).
    split; [| split]; [reflexivity | reflexivity | apply clamp_0_100_range].
  - intros key m fc. rewrite analyze_overall_score. cbv zeta.
    destruct (destructure_weights _) as [[w' |] | e]; cbn; try exact I.
    apply clamp_0_100_range.
Qed.

Lemma own_property_In {V} (o : Js.Object V) (k : string) (v : V) :
  Js.own_property o k = Some v -> In (k, v) o.
Proof.
  unfold Js.own_property. destruct (List.find _ o) as [[k' v'] |] eqn:Hfind; [| discriminate].
  intros [= <-]. apply find_some in Hfind as [Hin Hk]. simpl in Hk.
  now apply String.eqb_eq in Hk as ->.
Qed.

(** No weight of the registry is zero, so [|| 0.2] never replaces one. *)
Lemma registry_weights_nonzero :
  Forall (fun kv => Forall (fun dx => ~ (snd dx == 0)%Q) (weights (snd kv))) SPORT_PATTERNS.
Proof.
  unfold SPORT_PATTERNS.
  repeat (apply List.Forall_cons; [| try apply List.Forall_nil]).
  all: intros H; vm_compute in H; discriminate H.
Qed.

Lemma number_or_spec_weight (w : Weights) (d : string) :
  Forall (fun dx => ~ (snd dx == 0)%Q) w ->
  Js.number_or (Js.own_property w d) 0.2 = spec_weight w d.
Proof.
  intros Hw. unfold spec_weight, Js.number_or.
  destruct (Js.own_property w d) as [x |] eqn:Hx; [| reflexivity]. simpl.
  apply own_property_In in Hx. rewrite List.Forall_forall in Hw. apply Hw in Hx.
  apply truthy_number_nonzero in Hx. simpl in Hx. now rewrite Hx.
Qed.

(** On a weights object without a zero entry the code computes the
    specification's formula. *)
Lemma overall_score_spec (w : Weights) (s : RawScores) :
  Forall (fun dx => ~ (snd dx == 0)%Q) w ->
  overall_score (Some w) s = Js.Return (spec_overall w s).
Proof.
  intros Hw. unfold overall_score. rewrite weighted_sum_object. simpl.
  unfold spec_overall, clamp_0_100, reduced, Js.Math_round.
  rewrite !(number_or_spec_weight w _ Hw).
  do 3 f_equal. apply Qfloor_comp. ring.
Qed.

(** A key of the registry: the analysis uses its entry. *)
Lemma analyze_registry_key (key : string) (p : SportPattern) (s : RawScores)
    (m : Metrics) (fc : Z) :
  Js.own_property SPORT_PATTERNS key = Some p ->
  analyze key s m fc =
    Js.Return (mkResult (name p) key (spec_overall (weights p) s) s m
                        (generateInsights s m (name p)) fc).
Proof.
  intros Hp. rewrite analyze_overall_score. unfold SPORT_PATTERNS_get at 1.
  rewrite Hp. cbn [member_or truthy_member destructure_weights Js.bind pattern_name].
  rewrite overall_score_spec; [reflexivity |].
  apply own_property_In in Hp.
  pose proof registry_weights_nonzero as Hnz. rewrite List.Forall_forall in Hnz.
  apply (Hnz _ Hp).
Qed.

(** A key that names neither an entry nor a member of
    [Object.prototype]: the analysis uses the entry of [running]. *)
Lemma analyze_unknown_key (key : string) (s : RawScores) (m : Metrics) (fc : Z) :
  Js.own_property SPORT_PATTERNS key = None ->
  Js.inherited key = false ->
  analyze key s m fc =
    Js.Return (mkResult "Distance Running" key
                 (spec_overall (mkWeights 0.25 0.20 0.30 0.15 0.10) s) s m
                 (generateInsights s m "Distance Running") fc).
Proof.
  intros Hown Hinh. rewrite analyze_overall_score. unfold SPORT_PATTERNS_get at 1.
  rewrite Hown, Hinh.
  cbn [member_or truthy_member].
  change (SPORT_PATTERNS_get "running")
    with (MPattern (mkPattern "Distance Running" (mkWeights 0.25 0.20 0.30 0.15 0.10))).
  cbn [destructure_weights Js.bind pattern_name name weights].
  rewrite overall_score_spec; [reflexivity |].
  repeat (apply List.Forall_cons; [| try apply List.Forall_nil]).
  all: intros H; vm_compute in H; discriminate H.
Qed.

(** A key that names a member of [Object.prototype]: the lookup yields
    that member, [weights] is undefined, and the first [weights[k]]
    throws. *)
Lemma analyze_inherited_key (key : string) (s : RawScores) (m : Metrics) (fc : Z) :
  Js.own_property SPORT_PATTERNS key = None ->
  Js.inherited key = true ->
  analyze key s m fc =
    Js.Throw (Js.TypeError "Cannot read properties of undefined (reading 'form')").
Proof.
  intros Hown Hinh. unfold analyze, SPORT_PATTERNS_get at 1.
  rewrite Hown, Hinh. reflexivity.
Qed.

(** C1: at the sport key "toString" the scoring path does not compute
    the rounded weighted sum with 0.2 for the missing weights: the
    lookup yields the inherited member, the weight vector is undefined,
    and the reduction throws on its first step. *)
Theorem scoring_throws_on_inherited_key (s : RawScores) (m : Metrics) (fc : Z)
    (filePath : option string) (rnd : Random) :
  destructure_weights
    (member_or (SPORT_PATTERNS_get "toString") (SPORT_PATTERNS_get "running"))
    = Js.Return None /\
  overall_score None s =
    Js.Throw (Js.TypeError "Cannot read properties of undefined (reading 'form')") /\
  analyze "toString" s m fc =
    Js.Throw (Js.TypeError "Cannot read properties of undefined (reading 'form')") /\
  analyzeVideo "toString" filePath rnd =
    Js.Throw (Js.TypeError "Cannot read properties of undefined (reading 'form')").
Proof.
  repeat split; reflexivity.
Qed.

(** C6: the sport identifier "toString" is not a key of the registry,
    yet the request keeps it, the lookup does not resolve to the entry
    of the default sport, and the analysis request is answered with
    status 500 and an error body; the same holds for every other name
    inherited from [Object.prototype]. *)
Theorem unknown_sport_inherited_key_fails (env : Env) (d : option Database)
    (c : list string) (f p a : option string) :
  Js.own_property SPORT_PATTERNS "toString" = None /\
  request_sportKey (mkAnalyzeRequest (Some "toString") f p a) = "toString" /\
  member_or (SPORT_PATTERNS_get "toString") (SPORT_PATTERNS_get "running")
    = MInherited "toString" /\
  fst (post_analyze env (mkServer true d c) (mkAnalyzeRequest (Some "toString") f p a))
    = error 500 "Cannot read properties of undefined (reading 'form')" /\
  Forall (fun key =>
            Js.own_property SPORT_PATTERNS key = None /\
            fst (post_analyze env (mkServer true d c)
                              (mkAnalyzeRequest (Some key) f p a))
              = error 500 "Cannot read properties of undefined (reading 'form')")
         Js.Object_prototype_keys.
Proof.
  repeat split; try reflexivity.
  unfold Js.Object_prototype_keys.
  repeat (apply List.Forall_cons; [split; reflexivity |]). apply List.Forall_nil.
Qed.

(** ** The registry *)

(** C5: the registry has twelve entries, under twelve different keys,
    and in every entry each of the five weights (form, power,
    consistency, balance, timing) is non-negative and the five weights
    sum to 1.0 (exactly as decimals, and within 2^-50 as doubles). *)
Theorem registry_well_weighted :
  length SPORT_PATTERNS = 12%nat /\
  NoDup (map fst SPORT_PATTERNS) /\
  Forall (fun kv => well_weighted (weights (snd kv))) SPORT_PATTERNS.
Proof.
  split; [reflexivity |]. split.
  - apply (bool_decide_unpack _). vm_compute. exact I.
  - unfold SPORT_PATTERNS.
    repeat (apply List.Forall_cons; [| try apply List.Forall_nil]).
    all: unfold well_weighted; cbn [weights snd mkWeights].
    all: split; [reflexivity |].
    all: split; [repeat (apply List.Forall_cons; [discriminate |]); apply List.Forall_nil |].
    all: split; [reflexivity |].
    all: split; vm_compute; reflexivity.
Qed.

(** ** Best-effort persistence *)

(** The response of an analysis request does not depend on the database
    handle or on a storage fault. *)
Lemma post_analyze_response_storage (env : Env) (srv : Server) (req : AnalyzeRequest)
    (fault : option string) (handle : option Database) :
  fst (post_analyze env srv req) =
  fst (post_analyze (mkEnv (uuid env) (now env) (random env) fault)
                    (mkServer (multer srv) handle (console srv)) req).
Proof.
  unfold post_analyze, requireMulter. cbn [multer random uuid].
  destruct (multer srv); [| reflexivity].
  destruct (analyzeVideo _ _ _); reflexivity.
Qed.

(** C7: when the analysis of a request has computed its result and the
    write of the session fails, the response is still status 200 with
    the session identifier and the computed result as its body, the
    same response as for any other state of the storage; the failure
    only adds a line to the console, and the database is left as it
    was. *)
Theorem persistence_failure_absorbed (env : Env) (srv : Server) (d : Database)
    (req : AnalyzeRequest) (result : AnalysisResult) (message : string) :
  multer srv = true ->
  db srv = Some d ->
  analyzeVideo (request_sportKey req) (request_filePath req) (random env)
    = Js.Return result ->
  run_insert env d (uuid env) (Js.string_or_null (body_athleteId req))
             (request_filePath req) result = inr message ->
  post_analyze env srv req =
    (mkResponse 200 (BAnalysis (uuid env) result),
     mkServer true (Some d) (console srv ++ ["DB insert failed: " +:+ message])) /\
  forall fault handle,
    fst (post_analyze (mkEnv (uuid env) (now env) (random env) fault)
                      (mkServer (multer srv) handle (console srv)) req)
    = mkResponse 200 (BAnalysis (uuid env) result).
Proof.
  intros Hmulter Hdb Hresult Hfail.
  assert (Hpost : post_analyze env srv req =
    (mkResponse 200 (BAnalysis (uuid env) result),
     mkServer true (Some d) (console srv ++ ["DB insert failed: " +:+ message]))).
  { unfold post_analyze, requireMulter, persist.
    rewrite Hmulter, Hresult, Hdb, Hfail. unfold log, json. now rewrite Hdb, Hmulter. }
  split; [exact Hpost |].
  intros fault handle.
  rewrite <- post_analyze_response_storage, Hpost. reflexivity.
Qed.

Lemma persistence_failure_absorbed_witness :
  post_analyze Sample.faulty_env Sample.after_two Sample.yoga_request =
    (mkResponse 200
       (BAnalysis "session-3"
          (mkResult "Yoga" "yoga" 60 (mkScores 60 55 58 62 57)
             (mkMetrics 75 155 70 1.5 60)
             [MSG_FORM_LOW; MSG_POWER_LOW; MSG_CONSISTENCY_LOW; MSG_BALANCE_LOW;
              MSG_TIMING_LOW] 180)),
     mkServer true (Some Sample.two_sessions) ["DB insert failed: disk I/O error"]).
Proof.
  apply (persistence_failure_absorbed Sample.faulty_env Sample.after_two
           Sample.two_sessions Sample.yoga_request);
    reflexivity.
Defined.

(** ** Profile upsert *)

(** The row under [id] after a creating and an updating request. *)
Lemma stored_after_upserts (srv : Server) (d : Database) (env1 env2 : Env)
    (id name1 name2 : string) (req1 req2 : ProfileRequest) :
  upsert_twice_setting srv d env1 env2 id name1 name2 req1 req2 ->
  stored_after srv env1 env2 id req1 req2 =
    Some (Athlete.mkRow name2
            (Js.number_or_null (profile_age req2))
            (Js.number_or_null (profile_height req2))
            (Js.number_or_null (profile_weight req2))
            (Js.string_or_null (profile_sport req2))
            (Js.string_or_null (profile_level req2))
            (now env1) (now env2)).
Proof.
  intros (Hdb & Hfresh & Hid1 & Hid2 & Hname1 & Hname2 & Hok1 & Hok2 & _).
  unfold stored_after, post_profile, requireDB.
  rewrite Hdb, Hname1, Hid1, Hok1. cbn [snd with_db db from_option Datatypes.id].
  rewrite Hname2, Hid2, Hok2. cbn [snd with_db db from_option Datatypes.id athletes].
  unfold Athlete.upsert at 2. rewrite Hfresh.
  unfold Athlete.upsert. rewrite lookup_insert_eq.
  cbn [Athlete.created_at]. now rewrite lookup_insert_eq.
Qed.

Lemma example_upsert_setting (req2 : ProfileRequest) :
  Js.string_or_null (profile_id req2) = Some "athlete-1" ->
  Js.string_or_null (profile_name req2) = Some "Alex Johnson" ->
  profile_age req2 <> Some 24%Q ->
  upsert_twice_setting Sample.fresh (mkDatabase ∅ []) Sample.create_env
    Sample.update_env "athlete-1" "Alex Johnson" "Alex Johnson"
    Sample.create_request req2.
Proof.
  intros Hid Hname Hage. unfold upsert_twice_setting.
  repeat split; try assumption; reflexivity.
Qed.

(** C8 (as stated): a profile created with age 24 and sent again with
    age 0 is stored without an age, not with age 0. *)
Lemma upsert_zero_age_stored_null : ~ upsert_twice_claim.
Proof.
  intros Hclaim.
  assert (Hset : upsert_twice_setting Sample.fresh (mkDatabase ∅ []) Sample.create_env
            Sample.update_env "athlete-1" "Alex Johnson" "Alex Johnson"
            Sample.create_request Sample.age_0_request)
    by (apply example_upsert_setting; [reflexivity | reflexivity | discriminate]).
  destruct (Hclaim _ _ _ _ _ _ _ _ _ Hset) as (row & Hrow & Hage & _).
  rewrite (stored_after_upserts _ _ _ _ _ _ _ _ _ Hset) in Hrow.
  injection Hrow as <-. discriminate Hage.
Qed.

(** C8 (amended): after a first upsert that creates the profile [id]
    and a second one for the same [id] with a different age, the stored
    age is the age of the second request when that is a non-zero number
    and null when it is 0 or omitted; [created_at] is the time of the
    first request and [updated_at] the time of the second; the name is
    the one of the second request, and every optional field holds the
    second request's value when that is a non-zero number or a
    non-empty string and null when it is omitted, zero or empty. *)
Theorem upsert_twice (srv : Server) (d : Database) (env1 env2 : Env)
    (id name1 name2 : string) (req1 req2 : ProfileRequest) :
  upsert_twice_setting srv d env1 env2 id name1 name2 req1 req2 ->
  exists row,
    stored_after srv env1 env2 id req1 req2 = Some row /\
    Athlete.age row = Js.number_or_null (profile_age req2) /\
    (forall v, profile_age req2 = Some v -> ~ (v == 0)%Q -> Athlete.age row = Some v) /\
    Athlete.created_at row = now env1 /\
    Athlete.updated_at row = now env2 /\
    Athlete.name row = name2 /\
    Athlete.height_cm row = Js.number_or_null (profile_height req2) /\
    Athlete.weight_kg row = Js.number_or_null (profile_weight req2) /\
    Athlete.sport row = Js.string_or_null (profile_sport req2) /\
    Athlete.level row = Js.string_or_null (profile_level req2).
Proof.
  intros Hset. eexists. split; [exact (stored_after_upserts _ _ _ _ _ _ _ _ _ Hset) |].
  cbn. repeat split.
  intros v -> Hv. apply truthy_number_nonzero in Hv. cbn. now rewrite Hv.
Qed.

Lemma upsert_twice_witness :
  exists row,
    stored_after Sample.fresh Sample.create_env Sample.update_env "athlete-1"
                 Sample.create_request Sample.age_25_request = Some row /\
    Athlete.age row = Some 25%Q /\
    Athlete.height_cm row = None /\
    Athlete.created_at row = 50 /\
    Athlete.updated_at row = 60.
Proof.
  destruct (upsert_twice Sample.fresh (mkDatabase ∅ []) Sample.create_env
              Sample.update_env "athlete-1" "Alex Johnson" "Alex Johnson"
              Sample.create_request Sample.age_25_request)
    as (row & Hrow & Hage & _ & Hc & Hu & _ & Hh & _).
  - unfold upsert_twice_setting. repeat split; try reflexivity. discriminate.
  - exists row. repeat split; assumption.
Defined.

(** ** Session listing *)

#[local] Instance newer_first_total : Total Session.newer_first.
Proof. intros a b. unfold Session.newer_first. lia. Qed.

#[local] Instance newer_first_transitive : Transitive Session.newer_first.
Proof. intros a b c. unfold Session.newer_first. lia. Qed.

Lemma order_by_sorted (rows : list Session.Row) :
  StronglySorted Session.newer_first (Session.order_by_created_at_desc rows).
Proof. apply StronglySorted_merge_sort; apply _. Qed.

Lemma order_by_Forall (P : Session.Row -> Prop) (rows : list Session.Row) :
  Forall P rows -> Forall P (Session.order_by_created_at_desc rows).
Proof.
  unfold Session.order_by_created_at_desc.
  now rewrite (merge_sort_Permutation Session.newer_first rows).
Qed.

Lemma first_rows_length (n : Z) (rows : list Session.Row) :
  0 <= n -> Z.of_nat (length (Session.first_rows n rows)) <= n.
Proof.
  intros Hn. unfold Session.first_rows.
  destruct (Z.ltb_spec n 0) as [Hneg | _]; [lia |].
  rewrite length_take. lia.
Qed.

Lemma first_rows_sorted (R : relation Session.Row) (n : Z) (rows : list Session.Row) :
  StronglySorted R rows -> StronglySorted R (Session.first_rows n rows).
Proof.
  intros Hs. unfold Session.first_rows. destruct (n <? 0); [exact Hs |].
  rewrite <- (take_drop (Z.to_nat n) rows) in Hs.
  now apply StronglySorted_app_1_l in Hs.
Qed.

Lemma first_rows_Forall (P : Session.Row -> Prop) (n : Z) (rows : list Session.Row) :
  Forall P rows -> Forall P (Session.first_rows n rows).
Proof.
  intros H. unfold Session.first_rows. destruct (n <? 0); [exact H |].
  now apply Forall_take.
Qed.

Lemma accepted_iff (n : Z) : Session.accepted n = true <-> - 2 ^ 63 < n < 2 ^ 63 - 1.
Proof. unfold Session.accepted. rewrite andb_true_iff, !Z.ltb_lt. tauto. Qed.

Lemma sql_limit_accepted (n : Z) (rows : list Session.Row) :
  - 2 ^ 63 < n < 2 ^ 63 - 1 ->
  Session.sql_limit (Session.Integral n) rows = inl (Session.first_rows n rows).
Proof. intros H. apply accepted_iff in H. cbn. now rewrite H. Qed.

Lemma sql_limit_mismatch (limit : Session.Bound) (rows : list Session.Row) :
  limit = Session.NonIntegral \/
    (exists n, limit = Session.Integral n /\ (n <= - 2 ^ 63 \/ 2 ^ 63 - 1 <= n)) ->
  Session.sql_limit limit rows = inr "datatype mismatch".
Proof.
  intros [-> | (n & -> & Hn)]; [reflexivity |]. cbn.
  destruct (Session.accepted n) eqn:Ha; [| reflexivity].
  apply accepted_iff in Ha. lia.
Qed.

Lemma where_athlete_id_matches (a : string) (rows : list Session.Row) :
  Forall (fun r => Session.athlete_id r = Some a) (Session.where_athlete_id a rows).
Proof.
  apply List.Forall_forall. intros r Hr.
  apply filter_In in Hr as [_ Hr].
  destruct (Session.athlete_id r) as [x |]; [| discriminate].
  now apply String.eqb_eq in Hr as ->.
Qed.

Lemma where_athlete_id_stored (a : string) (rows : list Session.Row) :
  Forall (fun r => In r rows) (Session.where_athlete_id a rows).
Proof. apply List.Forall_forall. intros r Hr. now apply filter_In in Hr. Qed.

(** The rows a listing selects from and puts in order. *)
Lemma get_sessions_statement (srv : Server) (d : Database) (query : SessionsQuery) :
  db srv = Some d ->
  get_sessions srv query =
    match Session.sql_limit (limit_of query)
            (Session.order_by_created_at_desc
               (match Js.string_or_null (query_athleteId query) with
                | Some a => Session.where_athlete_id a (sessions d)
                | None => sessions d
                end)) with
    | inl rows => (json (BSessions rows), srv)
    | inr message => error_handler (Js.SqliteError message) srv
    end.
Proof.
  intros Hdb. unfold get_sessions, requireDB, limit_of. rewrite Hdb.
  destruct (Js.string_or_null (query_athleteId query)); reflexivity.
Qed.

(** What a listing returns for a database [d] and an accepted limit. *)
Lemma listed_rows (srv : Server) (d : Database) (query : SessionsQuery) (n : Z) :
  db srv = Some d ->
  limit_of query = Session.Integral n ->
  - 2 ^ 63 < n < 2 ^ 63 - 1 ->
  listed srv query =
    Some (Session.first_rows n
            (Session.order_by_created_at_desc
               (match Js.string_or_null (query_athleteId query) with
                | Some a => Session.where_athlete_id a (sessions d)
                | None => sessions d
                end))).
Proof.
  intros Hdb Hlimit Hn. unfold listed.
  rewrite (get_sessions_statement srv d query Hdb), Hlimit.
  now rewrite sql_limit_accepted.
Qed.

(** C9 (as stated): two sessions created within the same second are
    both listed, and their creation times do not strictly decrease. *)
Lemma sessions_list_not_strict : ~ sessions_list_claim.
Proof.
  intros Hclaim.
  destruct (Hclaim Sample.after_two Sample.two_sessions (mkSessionsQuery None None)
              eq_refl) as (rows & Hrows & _ & Hsorted & _).
  vm_compute in Hrows. injection Hrows as <-.
  apply StronglySorted_inv in Hsorted as [_ Hhd].
  apply Forall_inv in Hhd. vm_compute in Hhd. discriminate Hhd.
Qed.

(** C9 (amended): for a limit that the statement accepts (an integer
    strictly between -2^63 and 2^63 - 1; 20 when the query has none) the
    session list holds at most [limit] sessions when [limit] is not
    negative, the creation times never increase along it (newest first,
    sessions of the same second in either order), every listed session
    is a stored one, and when a non-empty [athleteId] is supplied every
    listed session has exactly that athlete reference.  For any other
    limit (not an integer, or an integer out of that range) the request
    is answered 500 "datatype mismatch", and the failure is logged. *)
Theorem sessions_list_ordered (srv : Server) (d : Database) (query : SessionsQuery) :
  db srv = Some d ->
  (forall n,
     limit_of query = Session.Integral n -> - 2 ^ 63 < n < 2 ^ 63 - 1 ->
     exists rows,
       listed srv query = Some rows /\
       (0 <= n -> Z.of_nat (length rows) <= n) /\
       StronglySorted Session.newer_first rows /\
       Forall (fun r => In r (sessions d)) rows /\
       (forall a, query_athleteId query = Some a -> a <> "" ->
                  Forall (fun r => Session.athlete_id r = Some a) rows)) /\
  (limit_of query = Session.NonIntegral \/
     (exists n, limit_of query = Session.Integral n /\
                (n <= - 2 ^ 63 \/ 2 ^ 63 - 1 <= n)) ->
   get_sessions srv query =
     (error 500 "datatype mismatch",
      mkServer (multer srv) (Some d)
        (console srv ++ ["Unhandled error: datatype mismatch"]))).
Proof.
  intros Hdb. split.
  - intros n Hlimit Hn. eexists. split; [exact (listed_rows _ _ query n Hdb Hlimit Hn) |].
    split; [apply first_rows_length |].
    split; [apply first_rows_sorted, order_by_sorted |].
    split.
    + apply first_rows_Forall, order_by_Forall.
      destruct (Js.string_or_null _).
      * apply where_athlete_id_stored.
      * now apply List.Forall_forall.
    + intros a Ha Hne. rewrite Ha.
      apply truthy_string_nonempty in Hne. cbn. rewrite Hne.
      apply first_rows_Forall, order_by_Forall, where_athlete_id_matches.
  - intros Hbad. rewrite (get_sessions_statement srv d query Hdb).
    rewrite sql_limit_mismatch by exact Hbad.
    unfold error_handler, log. cbn. now rewrite Hdb.
Qed.

Lemma sessions_list_ordered_witness :
  (exists rows,
     listed Sample.after_two
            (mkSessionsQuery (Some "athlete-1") (Some (Session.Integral 1))) = Some rows /\
     Z.of_nat (length rows) <= 1 /\
     Forall (fun r => Session.athlete_id r = Some "athlete-1") rows) /\
  fst (get_sessions Sample.after_two
         (mkSessionsQuery None (Some (Session.Integral (2 ^ 63)))))
    = error 500 "datatype mismatch".
Proof.
  split.
  - destruct (proj1 (sessions_list_ordered Sample.after_two Sample.two_sessions
                (mkSessionsQuery (Some "athlete-1") (Some (Session.Integral 1))) eq_refl)
                1 eq_refl ltac:(lia))
      as (rows & Hrows & Hlen & _ & _ & Hathlete).
    exists rows. split; [exact Hrows |]. split.
    + apply Hlen. lia.
    + apply (Hathlete "athlete-1"); [reflexivity | discriminate].
  - rewrite (proj2 (sessions_list_ordered Sample.after_two Sample.two_sessions
               (mkSessionsQuery None (Some (Session.Integral (2 ^ 63)))) eq_refl)).
    + reflexivity.
    + right. exists (2 ^ 63). split; [reflexivity | right; lia].
Defined.

(** ** Scenarios of the specification *)

(** Scores of 90 in every dimension give an overall of 90 under every
    entry of the registry. *)
Lemma scenario_all_90 :
  Forall (fun kv => spec_overall (weights (snd kv)) Sample.all_90 = 90) SPORT_PATTERNS.
Proof.
  unfold SPORT_PATTERNS.
  repeat (apply List.Forall_cons; [vm_compute; reflexivity |]). apply List.Forall_nil.
Qed.

(** A form score below 65 always surfaces the joint-alignment cue (it is
    the first rule), and never the praise. *)
Lemma scenario_low_form (s : RawScores) (m : Metrics) (sportName : string) :
  (form s < 65)%Q ->
  In MSG_FORM_LOW (generateInsights s m sportName) /\
  ~ In (MSG_FORM_HIGH sportName) (generateInsights s m sportName).
Proof.
  intros Hlow. split.
  - rewrite generateInsights_fired. unfold tests, fired.
    apply ltb_lt in Hlow. simpl. rewrite Hlow. now left.
  - intros Hhigh. apply form_praise_fires in Hhigh. lra.
Qed.

(** * Further properties of the code *)

(** ** Rounding *)

Lemma Math_round_between (lo hi : Z) (x : Q) :
  (inject_Z lo <= x <= inject_Z hi)%Q -> lo <= Js.Math_round x <= hi.
Proof.
  intros [Hlo Hhi]. unfold Js.Math_round. split.
  - rewrite <- (Qfloor_Z lo). apply Qfloor_resp_le. lra.
  - assert (H : (inject_Z (Qfloor (x + (1 # 2))) < inject_Z (hi + 1))%Q).
    { eapply Qle_lt_trans; [apply Qfloor_le |]. rewrite inject_Z_plus.
      change (inject_Z 1) with 1%Q. lra. }
    rewrite <- Zlt_Qlt in H. lia.
Qed.

Lemma Math_round_integer (n : Z) : Js.Math_round (inject_Z n) = n.
Proof.
  pose proof (Math_round_between n n (inject_Z n)) as H.
  assert (n <= Js.Math_round (inject_Z n) <= n) by (apply H; lra). lia.
Qed.

Lemma round_draw_between (spread : Z) (r : Q) :
  0 <= spread -> unit_interval r ->
  0 <= Js.Math_round (r * inject_Z spread) <= spread.
Proof.
  intros Hs [H0 H1]. apply Math_round_between. change (inject_Z 0) with 0%Q.
  assert (Hq : (0 <= inject_Z spread)%Q) by (rewrite Zle_Qle in Hs; exact Hs).
  split; [apply Qmult_le_0_compat; assumption |].
  rewrite <- (Qmult_1_l (inject_Z spread)) at 2.
  apply Qmult_le_compat_r; [lra | exact Hq].
Qed.

Lemma simulated_between (base spread : Z) (r : Q) :
  0 <= spread -> unit_interval r ->
  integer_between base (base + spread) (simulated base r spread).
Proof.
  intros Hs Hr. unfold simulated. eexists. split; [reflexivity |].
  pose proof (round_draw_between spread r Hs Hr). lia.
Qed.

(** ** The simulated analysis *)

Lemma simulate_scores_between (rnd : Random) :
  unit_draws rnd ->
  integer_between 60 95 (form (simulate_scores rnd)) /\
  integer_between 55 95 (power (simulate_scores rnd)) /\
  integer_between 58 95 (consistency (simulate_scores rnd)) /\
  integer_between 62 95 (balance (simulate_scores rnd)) /\
  integer_between 57 95 (timing (simulate_scores rnd)).
Proof.
  intros (Hf & Hp & Hc & Hb & Ht & _).
  repeat split; cbn [simulate_scores form power consistency balance timing].
  - now apply (simulated_between 60 35).
  - now apply (simulated_between 55 40).
  - now apply (simulated_between 58 37).
  - now apply (simulated_between 62 33).
  - now apply (simulated_between 57 38).
Qed.

(** X1: with every draw of Math.random in [0,1), the simulated raw
    scores are integers in fixed ranges: form 60..95, power 55..95,
    consistency 58..95, balance 62..95, timing 57..95. *)
Theorem simulated_scores_ranges (rnd : Random) :
  unit_draws rnd ->
  integer_between 60 95 (form (simulate_scores rnd)) /\
  integer_between 55 95 (power (simulate_scores rnd)) /\
  integer_between 58 95 (consistency (simulate_scores rnd)) /\
  integer_between 62 95 (balance (simulate_scores rnd)) /\
  integer_between 57 95 (timing (simulate_scores rnd)).
Proof. apply simulate_scores_between. Qed.

Lemma simulate_metrics_between (rnd : Random) :
  unit_draws rnd ->
  integer_between 75 105 (kneeAngle (simulate_metrics rnd)) /\
  integer_between 155 195 (hipAngle (simulate_metrics rnd)) /\
  integer_between 70 130 (armAngle (simulate_metrics rnd)) /\
  integer_between 60 95 (balance_metric (simulate_metrics rnd)) /\
  (exists n : Z, speedIndex (simulate_metrics rnd) = (inject_Z n / 10)%Q /\ 15 <= n <= 50) /\
  180 <= 180 + Js.Math_round (rnd_frameCount rnd * 120) <= 300.
Proof.
  intros (_ & _ & _ & _ & _ & Hk & Hh & Ha & Hs & Hb & Hf).
  cbn [simulate_metrics kneeAngle hipAngle armAngle balance_metric speedIndex].
  split; [now apply (simulated_between 75 30) |].
  split; [now apply (simulated_between 155 40) |].
  split; [now apply (simulated_between 70 60) |].
  split; [now apply (simulated_between 60 35) |].
  split.
  - unfold toFixed_1. eexists. split; [reflexivity |].
    apply Math_round_between. destruct Hs as [H0 H1].
    change (inject_Z 15) with 15%Q. change (inject_Z 50) with 50%Q. lra.
  - pose proof (round_draw_between 120 (rnd_frameCount rnd) ltac:(lia) Hf) as H.
    change (inject_Z 120) with 120%Q in H. lia.
Qed.

(** X2: with every draw in [0,1), the simulated metrics are integers
    in fixed ranges (knee angle 75..105, hip angle 155..195, arm angle
    70..130, balance 60..95), the speed index is a number of tenths
    between 1.5 and 5.0, and the frame count lies in 180..300. *)
Theorem simulated_metrics_ranges (rnd : Random) :
  unit_draws rnd ->
  integer_between 75 105 (kneeAngle (simulate_metrics rnd)) /\
  integer_between 155 195 (hipAngle (simulate_metrics rnd)) /\
  integer_between 70 130 (armAngle (simulate_metrics rnd)) /\
  integer_between 60 95 (balance_metric (simulate_metrics rnd)) /\
  (exists n : Z, speedIndex (simulate_metrics rnd) = (inject_Z n / 10)%Q /\ 15 <= n <= 50) /\
  180 <= 180 + Js.Math_round (rnd_frameCount rnd * 120) <= 300.
Proof. apply simulate_metrics_between. Qed.

(** What a returned result is made of. *)
Lemma analyze_Return (key : string) (s : RawScores) (m : Metrics) (fc : Z)
    (r : AnalysisResult) :
  analyze key s m fc = Js.Return r ->
  sportKey r = key /\ scores r = s /\ metrics r = m /\ frameCount r = fc /\
  insights r = generateInsights s m (sport r) /\
  0 <= overall r <= 100.
Proof.
  rewrite analyze_overall_score. cbv zeta.
  destruct (destructure_weights _) as [[w |] | e]; cbn; try discriminate.
  intros [= <-]. cbn. repeat split; apply clamp_0_100_range.
Qed.

Lemma knee_straight_fires (s : RawScores) (m : Metrics) (sportName : string) :
  In MSG_KNEE_STRAIGHT (generateInsights s m sportName) -> (160 < kneeAngle m)%Q.
Proof.
  intros H. apply generateInsights_fires in H. which_test H;
    try discriminate. now apply gtb_gt.
Qed.

Lemma knee_bent_fires (s : RawScores) (m : Metrics) (sportName : string) :
  In MSG_KNEE_BENT (generateInsights s m sportName) -> (kneeAngle m < 80)%Q.
Proof.
  intros H. apply generateInsights_fires in H. which_test H;
    try discriminate. now apply ltb_lt.
Qed.

(** X3: a result of analyzeVideo never contains the "Legs too straight"
    insight: the simulated knee angle never exceeds 105, far below the
    160 the rule asks for. *)
Theorem analyzeVideo_never_legs_too_straight (key : string) (filePath : option string)
    (rnd : Random) (r : AnalysisResult) :
  unit_draws rnd ->
  analyzeVideo key filePath rnd = Js.Return r ->
  ~ In MSG_KNEE_STRAIGHT (insights r).
Proof.
  intros Hrnd Hr Hin. unfold analyzeVideo in Hr.
  apply analyze_Return in Hr as (_ & _ & _ & _ & Hi & _).
  rewrite Hi in Hin. apply knee_straight_fires in Hin.
  destruct (simulate_metrics_between rnd Hrnd) as ((n & Hn & Hrange) & _).
  rewrite Hn in Hin. change 160%Q with (inject_Z 160) in Hin.
  rewrite <- Zlt_Qlt in Hin. lia.
Qed.

(** ** The weighted mean *)

(** Under every entry of the registry the rounded sum stays between the
    bounds of the raw scores. *)
Lemma registry_mean_between :
  Forall (fun kv => forall lo hi s,
            scores_between lo hi s ->
            lo <= Js.Math_round (reduced (weights (snd kv)) s) <= hi)
         SPORT_PATTERNS.
Proof.
  unfold SPORT_PATTERNS.
  repeat (apply List.Forall_cons; [| try apply List.Forall_nil]).
  all: intros lo hi s (Hf & Hp & Hc & Hb & Ht); apply Math_round_between.
  all: unfold reduced; cbn.
  all: repeat match goal with
              | |- context [Js.truthy_number ?q] => change (Js.truthy_number q) with true
              end.
  all: cbv iota; lra.
Qed.

Lemma resolved_in_registry (key : string) :
  exists k, In (k, resolved key) SPORT_PATTERNS.
Proof.
  unfold resolved. destruct (Js.own_property SPORT_PATTERNS key) as [p |] eqn:Hp.
  - exists key. now apply own_property_In.
  - exists "running". unfold SPORT_PATTERNS. do 6 right. now left.
Qed.

(** The result of the analysis for a key that resolves. *)
Lemma analyze_resolved (key : string) (s : RawScores) (m : Metrics) (fc : Z) :
  resolves key ->
  analyze key s m fc =
    Js.Return (mkResult (name (resolved key)) key
                 (clamp_0_100 (Js.Math_round (reduced (weights (resolved key)) s)))
                 s m (generateInsights s m (name (resolved key))) fc).
Proof.
  intros Hres. rewrite analyze_overall_score. unfold resolved, SPORT_PATTERNS_get.
  destruct (Js.own_property SPORT_PATTERNS key) as [p |] eqn:Hp.
  - reflexivity.
  - destruct Hres as [Hown | Hinh]; [congruence |]. rewrite Hinh. reflexivity.
Qed.

(** X4: under every entry of the registry, raw scores that all lie
    between two integers [lo] and [hi] of the range 0..100 give an
    overall score between [lo] and [hi], and the clamp leaves the
    rounded sum as it is. *)
Theorem registry_overall_within_scores (key : string) (p : SportPattern) (lo hi : Z)
    (s : RawScores) :
  Js.own_property SPORT_PATTERNS key = Some p ->
  0 <= lo -> hi <= 100 ->
  scores_between lo hi s ->
  exists z,
    overall_score (Some (weights p)) s = Js.Return z /\
    z = Js.Math_round (reduced (weights p) s) /\
    lo <= z <= hi.
Proof.
  intros Hp Hlo Hhi Hs. apply own_property_In in Hp.
  pose proof registry_mean_between as Hmean. rewrite List.Forall_forall in Hmean.
  specialize (Hmean _ Hp lo hi s Hs). cbn [snd] in Hmean.
  exists (Js.Math_round (reduced (weights p) s)). split; [| split; [reflexivity | exact Hmean]].
  unfold overall_score. rewrite weighted_sum_object. cbn [Js.bind].
  f_equal. unfold clamp_0_100. lia.
Qed.

Lemma registry_overall_within_scores_witness :
  exists z,
    overall_score (Some (mkWeights 0.40 0.05 0.20 0.30 0.05)) Sample.all_90 = Js.Return z /\
    90 <= z <= 90.
Proof.
  destruct (registry_overall_within_scores "yoga"
              (mkPattern "Yoga" (mkWeights 0.40 0.05 0.20 0.30 0.05)) 90 90 Sample.all_90)
    as (z & Hz & _ & Hrange).
  - reflexivity.
  - lia.
  - lia.
  - unfold scores_between. cbn. repeat split; discriminate.
  - exists z. split; assumption.
Defined.

(** X5: for a sport key that is a registry key or names no member of
    Object.prototype, and draws in [0,1), analyzeVideo returns a result
    whose overall is the rounded weighted sum itself and lies in
    55..95. *)
Theorem analyzeVideo_overall_range (key : string) (filePath : option string)
    (rnd : Random) :
  resolves key -> unit_draws rnd ->
  exists r,
    analyzeVideo key filePath rnd = Js.Return r /\
    overall r = Js.Math_round (reduced (weights (resolved key)) (simulate_scores rnd)) /\
    55 <= overall r <= 95.
Proof.
  intros Hres Hrnd. unfold analyzeVideo. rewrite analyze_resolved by exact Hres.
  eexists. split; [reflexivity |]. cbn [overall].
  destruct (resolved_in_registry key) as (k & Hin).
  pose proof registry_mean_between as Hmean. rewrite List.Forall_forall in Hmean.
  assert (Hbetween : scores_between 55 95 (simulate_scores rnd)).
  { destruct (simulate_scores_between rnd Hrnd)
      as ((f & Ef & Hf) & (p & Ep & Hp) & (c & Ec & Hc) & (b & Eb & Hb) & (t & Et & Ht)).
    unfold scores_between. rewrite Ef, Ep, Ec, Eb, Et, <- !Zle_Qle. lia. }
  specialize (Hmean _ Hin 55 95 _ Hbetween). cbn [snd] in Hmean.
  unfold clamp_0_100. split; lia.
Qed.

Lemma analyzeVideo_overall_range_witness :
  exists r,
    analyzeVideo "tennis" None Fixture.halves = Js.Return r /\ 55 <= overall r <= 95.
Proof.
  destruct (analyzeVideo_overall_range "tennis" None Fixture.halves)
    as (r & Hr & _ & Hrange).
  - left. discriminate.
  - unfold unit_draws, unit_interval. cbn. repeat split; discriminate.
  - exists r. split; assumption.
Defined.

(** X6: a weight of exactly 0 is falsy, so [weights[k] || 0.2] scores
    the dimension as if its weight were missing: an entry of 0 and no
    entry at all give the same overall. *)
Theorem zero_weight_counts_as_missing (f p c b t : Q) (s : RawScores) :
  overall_score (Some (mkWeights 0 p c b t)) s
    = overall_score (Some [("power", p); ("consistency", c); ("balance", b); ("timing", t)]) s /\
  overall_score (Some (mkWeights f 0 c b t)) s
    = overall_score (Some [("form", f); ("consistency", c); ("balance", b); ("timing", t)]) s /\
  overall_score (Some (mkWeights f p 0 b t)) s
    = overall_score (Some [("form", f); ("power", p); ("balance", b); ("timing", t)]) s /\
  overall_score (Some (mkWeights f p c 0 t)) s
    = overall_score (Some [("form", f); ("power", p); ("consistency", c); ("timing", t)]) s /\
  overall_score (Some (mkWeights f p c b 0)) s
    = overall_score (Some [("form", f); ("power", p); ("consistency", c); ("balance", b)]) s /\
  overall_score (Some (mkWeights 0 0 0 0 0)) s = overall_score (Some []) s.
Proof. repeat split; reflexivity. Qed.

(** ** More on the insight generator *)

Lemma power_cue_fires (s : RawScores) (m : Metrics) (sportName : string) :
  In MSG_POWER_LOW (generateInsights s m sportName) -> (power s < 65)%Q.
Proof.
  intros H. apply generateInsights_fires in H. which_test H;
    try discriminate. now apply ltb_lt.
Qed.

Lemma balance_cue_fires (s : RawScores) (m : Metrics) (sportName : string) :
  In MSG_BALANCE_LOW (generateInsights s m sportName) -> (balance s < 65)%Q.
Proof.
  intros H. apply generateInsights_fires in H. which_test H;
    try discriminate. now apply ltb_lt.
Qed.

Lemma timing_cue_fires (s : RawScores) (m : Metrics) (sportName : string) :
  In MSG_TIMING_LOW (generateInsights s m sportName) -> (timing s < 65)%Q.
Proof.
  intros H. apply generateInsights_fires in H. which_test H;
    try discriminate. now apply ltb_lt.
Qed.

(** A score cue whose test succeeds is among the first five messages. *)
Ltac cue_is_kept H :=
  apply ltb_lt in H;
  rewrite generateInsights_fired; unfold tests, fired; simpl; rewrite H;
  repeat match goal with
         | |- context [if Js.ltb ?x 65 then _ else _] => destruct (Js.ltb x 65)
         end;
  simpl; repeat (first [left; reflexivity | right]).

(** X7: the five score cues are never lost to the truncation: each of
    them is in the returned list exactly when its score is below 65. *)
Theorem score_cues_never_truncated (s : RawScores) (m : Metrics) (sportName : string) :
  (In MSG_FORM_LOW (generateInsights s m sportName) <-> (form s < 65)%Q) /\
  (In MSG_POWER_LOW (generateInsights s m sportName) <-> (power s < 65)%Q) /\
  (In MSG_CONSISTENCY_LOW (generateInsights s m sportName) <-> (consistency s < 65)%Q) /\
  (In MSG_BALANCE_LOW (generateInsights s m sportName) <-> (balance s < 65)%Q) /\
  (In MSG_TIMING_LOW (generateInsights s m sportName) <-> (timing s < 65)%Q).
Proof.
  repeat split.
  - apply form_cue_fires.
  - intros H. cue_is_kept H.
  - apply power_cue_fires.
  - intros H. cue_is_kept H.
  - apply consistency_cue_fires.
  - intros H. cue_is_kept H.
  - apply balance_cue_fires.
  - intros H. cue_is_kept H.
  - apply timing_cue_fires.
  - intros H. cue_is_kept H.
Qed.

Lemma fired_sublist (l : list (bool * string)) : fired l `sublist_of` map snd l.
Proof.
  unfold fired. induction l as [| [[] msg] l IH]; simpl.
  - constructor.
  - now apply sublist_skip.
  - now apply sublist_cons.
Qed.

Lemma messages_distinct (s : RawScores) (m : Metrics) (sportName : string) :
  NoDup (map snd (tests s m sportName)).
Proof.
  unfold tests. simpl.
  repeat (apply NoDup_cons_2;
          [rewrite list_elem_of_In; simpl; intros H;
           repeat (destruct H as [H | H]; [discriminate H |]); exact H |]).
  apply NoDup_nil_2.
Qed.

(** X8: the list returned by generateInsights holds no message
    twice. *)
Theorem insights_without_repetition (s : RawScores) (m : Metrics) (sportName : string) :
  NoDup (generateInsights s m sportName).
Proof.
  rewrite generateInsights_fired.
  eapply sublist_NoDup; [| apply sublist_take].
  eapply sublist_NoDup; [apply messages_distinct | apply fired_sublist].
Qed.

(** X9: the two knee warnings never occur together: the knee-bend
    warning is returned only for a knee angle below 80 and the
    straight-legs warning only for one above 160. *)
Theorem knee_warnings_exclusive (s : RawScores) (m : Metrics) (sportName : string) :
  (In MSG_KNEE_BENT (generateInsights s m sportName) ->
   (kneeAngle m < 80)%Q /\ ~ In MSG_KNEE_STRAIGHT (generateInsights s m sportName)) /\
  (In MSG_KNEE_STRAIGHT (generateInsights s m sportName) ->
   (160 < kneeAngle m)%Q /\ ~ In MSG_KNEE_BENT (generateInsights s m sportName)).
Proof.
  split; intros H.
  - apply knee_bent_fires in H. split; [exact H |].
    intros H'. apply knee_straight_fires in H'. lra.
  - apply knee_straight_fires in H. split; [exact H |].
    intros H'. apply knee_bent_fires in H'. lra.
Qed.

Lemma produced_nothing (rules : list (Prop * string)) :
  produced rules [] -> Forall (fun r => ~ fst r) rules.
Proof.
  induction rules as [| [P msg] rules IH]; intros H.
  - apply List.Forall_nil.
  - inversion H; subst. apply List.Forall_cons; [assumption | now apply IH].
Qed.

(** X10: generateInsights returns the empty list exactly when form and
    consistency lie in [65,80), power, balance and timing are at least
    65, and the knee angle lies in [80,160]. *)
Theorem no_insight_iff_no_rule (s : RawScores) (m : Metrics) (sportName : string) :
  generateInsights s m sportName = [] <->
  (65 <= form s < 80 /\ 65 <= power s /\ 65 <= consistency s < 80 /\
   65 <= balance s /\ 65 <= timing s /\ 80 <= kneeAngle m <= 160)%Q.
Proof.
  pose proof (produced_fired _ _ (tests_decide_rules s m sportName)) as Hp.
  pose proof (generateInsights_fired s m sportName) as Hg.
  split.
  - intros Hempty. rewrite Hg in Hempty.
    assert (Hnil : fired (tests s m sportName) = [])
      by (destruct (fired _); [reflexivity | discriminate Hempty]).
    rewrite Hnil in Hp.
    apply produced_nothing in Hp. unfold rule_table in Hp.
    repeat match goal with
           | H : Forall _ (_ :: _) |- _ => apply Forall_cons_1 in H as [? H]
           end.
    simpl in *. lra.
  - intros H. rewrite Hg. erewrite (produced_none _ _ Hp); [reflexivity |].
    unfold rule_table.
    repeat (apply List.Forall_cons; [simpl; lra |]). apply List.Forall_nil.
Qed.

(** ** Sessions: insert, lookup, listing *)

Lemma select_by_id_None (i : string) (rows : list Session.Row) :
  Session.select_by_id i rows = None <-> ~ In i (map Session.id rows).
Proof.
  unfold Session.select_by_id. induction rows as [| r rows IH]; simpl.
  - tauto.
  - destruct (String.eqb_spec (Session.id r) i) as [Heq | Hne].
    + split; [discriminate | intros H; exfalso; apply H; now left].
    + rewrite IH. tauto.
Qed.

Lemma select_by_id_Some (i : string) (rows : list Session.Row) (row : Session.Row) :
  Session.select_by_id i rows = Some row -> In row rows /\ Session.id row = i.
Proof.
  unfold Session.select_by_id. intros H. apply find_some in H as [Hin Hid].
  split; [exact Hin | now apply String.eqb_eq].
Qed.

Lemma select_by_id_app (i : string) (rows more : list Session.Row) :
  Session.select_by_id i (rows ++ more) =
    match Session.select_by_id i rows with
    | Some row => Some row
    | None => Session.select_by_id i more
    end.
Proof.
  unfold Session.select_by_id. induction rows as [| r rows IH]; simpl.
  - reflexivity.
  - destruct (String.eqb (Session.id r) i); [reflexivity | exact IH].
Qed.

Lemma id_taken (i : string) (rows : list Session.Row) :
  existsb (fun r => String.eqb (Session.id r) i) rows = true <-> In i (map Session.id rows).
Proof.
  rewrite existsb_exists, in_map_iff. split.
  - intros (r & Hin & Heq). exists r. split; [now apply String.eqb_eq | exact Hin].
  - intros (r & Heq & Hin). exists r. split; [exact Hin | now apply String.eqb_eq].
Qed.

(** The statement either appends the row or, when the identifier is
    taken, fails without a change. *)
Lemma insert_cases (t : Timestamp) (i : string) (a : option string) (sp : string)
    (o : Z) (sc : RawScores) (me : Metrics) (ins : list string) (fp : option string)
    (fc : Z) (rows : list Session.Row) :
  (In i (map Session.id rows) /\
   Session.insert t i a sp o sc me ins fp fc rows
     = inr "UNIQUE constraint failed: sessions.id") \/
  (~ In i (map Session.id rows) /\
   Session.insert t i a sp o sc me ins fp fc rows
     = inl (rows ++ [Session.mkRow i a sp o sc me ins fp fc t])).
Proof.
  unfold Session.insert.
  destruct (existsb _ rows) eqn:Hex.
  - left. split; [now apply id_taken | reflexivity].
  - right. split; [| reflexivity]. rewrite <- id_taken, Hex. discriminate.
Qed.

(** What an analysis request does to a server with a database: nothing
    to the database, or one appended row under a fresh identifier. *)
Lemma post_analyze_database (env : Env) (srv : Server) (req : AnalyzeRequest)
    (d : Database) :
  db srv = Some d ->
  db (snd (post_analyze env srv req)) = Some d \/
  exists result,
    analyzeVideo (request_sportKey req) (request_filePath req) (random env)
      = Js.Return result /\
    multer srv = true /\ storage_fault env = None /\
    ~ In (uuid env) (session_ids d) /\
    db (snd (post_analyze env srv req))
      = Some (mkDatabase (athletes d) (sessions d ++ [session_row env req result])).
Proof.
  intros Hdb. unfold post_analyze, requireMulter.
  destruct (multer srv) eqn:Hm; [| left; exact Hdb].
  destruct (analyzeVideo _ _ _) as [result | e] eqn:Hr; [| left; exact Hdb].
  rewrite Hdb. unfold persist, run_insert.
  destruct (storage_fault env) eqn:Hf; [left; exact Hdb |].
  destruct (insert_cases (now env) (uuid env) (Js.string_or_null (body_athleteId req))
              (sport result) (overall result) (scores result) (metrics result)
              (insights result) (request_filePath req) (frameCount result) (sessions d))
    as [[_ ->] | [Hfresh ->]].
  - left. exact Hdb.
  - right. exists result. repeat split; first [assumption | reflexivity].
Qed.

(** A write that goes through. *)
Lemma post_analyze_stores (env : Env) (srv : Server) (d : Database)
    (req : AnalyzeRequest) (result : AnalysisResult) :
  multer srv = true ->
  db srv = Some d ->
  storage_fault env = None ->
  ~ In (uuid env) (session_ids d) ->
  analyzeVideo (request_sportKey req) (request_filePath req) (random env)
    = Js.Return result ->
  post_analyze env srv req =
    (json (BAnalysis (uuid env) result),
     mkServer true
       (Some (mkDatabase (athletes d) (sessions d ++ [session_row env req result])))
       (console srv)).
Proof.
  intros Hm Hdb Hf Hfresh Hr.
  unfold post_analyze, requireMulter, persist, run_insert.
  rewrite Hm, Hr, Hdb, Hf.
  destruct (insert_cases (now env) (uuid env) (Js.string_or_null (body_athleteId req))
              (sport result) (overall result) (scores result) (metrics result)
              (insights result) (request_filePath req) (frameCount result) (sessions d))
    as [[Hin _] | [_ ->]]; [contradiction |].
  unfold with_db. now rewrite Hm.
Qed.

(** X11: after an analysis request whose write goes through (database
    present, no storage fault, identifier not yet stored), the session
    fetched under the returned identifier is the row of that result:
    its sport, overall, scores, metrics, insights and frame count, the
    athlete reference and file path of the request, and the time of the
    request; no profile has to exist for the athlete reference. *)
Theorem analyze_then_get_session (env : Env) (srv : Server) (d : Database)
    (req : AnalyzeRequest) (result : AnalysisResult) :
  multer srv = true ->
  db srv = Some d ->
  storage_fault env = None ->
  ~ In (uuid env) (session_ids d) ->
  analyzeVideo (request_sportKey req) (request_filePath req) (random env)
    = Js.Return result ->
  fst (post_analyze env srv req) = json (BAnalysis (uuid env) result) /\
  fst (get_session (snd (post_analyze env srv req)) (uuid env))
    = json (BSession (session_row env req result)).
Proof.
  intros Hm Hdb Hf Hfresh Hr.
  rewrite (post_analyze_stores env srv d req result Hm Hdb Hf Hfresh Hr).
  split; [reflexivity |].
  unfold get_session, requireDB. cbn [snd db sessions].
  rewrite select_by_id_app.
  apply select_by_id_None in Hfresh. unfold session_ids in Hfresh.
  rewrite Hfresh. cbn. now rewrite String.eqb_refl.
Qed.

(** X12: an analysis request never touches the profiles and never
    changes or removes a stored session: the sessions afterwards are
    the sessions before followed by at most one new row, their
    identifiers stay pairwise different, and every session that could
    be fetched before is fetched unchanged afterwards. *)
Theorem sessions_append_only (env : Env) (srv : Server) (req : AnalyzeRequest)
    (d : Database) :
  db srv = Some d ->
  exists d',
    db (snd (post_analyze env srv req)) = Some d' /\
    athletes d' = athletes d /\
    (exists new, sessions d' = sessions d ++ new /\ (length new <= 1)%nat) /\
    (NoDup (session_ids d) -> NoDup (session_ids d')) /\
    (forall i row,
        Session.select_by_id i (sessions d) = Some row ->
        Session.select_by_id i (sessions d') = Some row).
Proof.
  intros Hdb.
  destruct (post_analyze_database env srv req d Hdb)
    as [Hsame | (result & _ & _ & _ & Hfresh & Hd')].
  - exists d. split; [exact Hsame |]. split; [reflexivity |]. split.
    + exists []. split; [now rewrite app_nil_r | simpl; lia].
    + split; [tauto | tauto].
  - eexists. split; [exact Hd' |]. cbn [athletes sessions]. split; [reflexivity |]. split.
    + eexists. split; [reflexivity | simpl; lia].
    + split.
      * intros Hnodup. unfold session_ids in *. cbn [sessions].
        rewrite map_app. apply NoDup_app. split; [exact Hnodup |]. split.
        -- intros i Hi Hi'. apply list_elem_of_In in Hi. cbn in Hi'.
           apply list_elem_of_singleton in Hi'. subst i. contradiction.
        -- cbn. apply NoDup_singleton.
      * intros i row Hrow. rewrite select_by_id_app, Hrow. reflexivity.
Qed.

(** X13: when the generated identifier is already the key of a stored
    session, the insert fails on the primary key; the request is still
    answered 200 with the result, the database is unchanged, and the
    console receives the line of the failed insert. *)
Theorem session_id_collision (env : Env) (srv : Server) (d : Database)
    (req : AnalyzeRequest) (result : AnalysisResult) :
  multer srv = true ->
  db srv = Some d ->
  storage_fault env = None ->
  In (uuid env) (session_ids d) ->
  analyzeVideo (request_sportKey req) (request_filePath req) (random env)
    = Js.Return result ->
  post_analyze env srv req =
    (json (BAnalysis (uuid env) result),
     mkServer true (Some d)
       (console srv ++ ["DB insert failed: UNIQUE constraint failed: sessions.id"])).
Proof.
  intros Hm Hdb Hf Htaken Hr.
  unfold post_analyze, requireMulter, persist, run_insert.
  rewrite Hm, Hr, Hdb, Hf.
  destruct (insert_cases (now env) (uuid env) (Js.string_or_null (body_athleteId req))
              (sport result) (overall result) (scores result) (metrics result)
              (insights result) (request_filePath req) (frameCount result) (sessions d))
    as [[_ ->] | [Hfresh _]]; [| contradiction].
  unfold log. now rewrite Hm, Hdb.
Qed.

(** X14: fetching a session changes nothing; it answers with a stored
    row under the requested identifier when there is one, and with
    404 "Session not found." when there is none. *)
Theorem get_session_found_or_404 (srv : Server) (d : Database) (i : string) :
  db srv = Some d ->
  snd (get_session srv i) = srv /\
  (In i (session_ids d) ->
   exists row, fst (get_session srv i) = json (BSession row) /\
               In row (sessions d) /\ Session.id row = i) /\
  (~ In i (session_ids d) ->
   fst (get_session srv i) = error 404 "Session not found.").
Proof.
  intros Hdb. unfold get_session, requireDB. rewrite Hdb.
  destruct (Session.select_by_id i (sessions d)) as [row |] eqn:Hrow.
  - split; [reflexivity |]. split.
    + intros _. exists row. split; [reflexivity |]. now apply select_by_id_Some.
    + intros Hnot. apply select_by_id_None in Hnot. unfold session_ids in Hnot.
      congruence.
  - split; [reflexivity |]. split.
    + intros Hin. apply select_by_id_None in Hrow. contradiction.
    + reflexivity.
Qed.

Lemma first_rows_all (n : Z) (rows : list Session.Row) :
  n < 0 \/ Z.of_nat (length rows) <= n -> Session.first_rows n rows = rows.
Proof.
  intros H. unfold Session.first_rows.
  destruct (Z.ltb_spec n 0) as [_ | Hn]; [reflexivity |].
  apply take_ge. lia.
Qed.

Lemma listed_selected (srv : Server) (d : Database) (query : SessionsQuery) (n : Z) :
  db srv = Some d ->
  limit_of query = Session.Integral n ->
  - 2 ^ 63 < n < 2 ^ 63 - 1 ->
  listed srv query =
    Some (Session.first_rows n (Session.order_by_created_at_desc (selected query d))).
Proof. intros Hdb Hlimit Hn. unfold selected. now apply listed_rows. Qed.

(** An accepted limit that does not cut: the listing is the selection,
    reordered. *)
Lemma listed_all (srv : Server) (d : Database) (query : SessionsQuery) (n : Z) :
  db srv = Some d ->
  limit_of query = Session.Integral n ->
  - 2 ^ 63 < n < 2 ^ 63 - 1 ->
  n < 0 \/ Z.of_nat (length (selected query d)) <= n ->
  exists rows,
    listed srv query = Some rows /\
    rows ≡ₚ selected query d /\
    (forall a, query_athleteId query = Some a -> a <> "" ->
       forall r, In r rows <-> In r (sessions d) /\ Session.athlete_id r = Some a) /\
    (query_athleteId query = None \/ query_athleteId query = Some "" ->
       rows ≡ₚ sessions d).
Proof.
  intros Hdb Hlimit Hn Hcut.
  assert (Hperm : Session.order_by_created_at_desc (selected query d) ≡ₚ selected query d)
    by apply merge_sort_Permutation.
  eexists. split; [exact (listed_selected srv d query n Hdb Hlimit Hn) |].
  rewrite first_rows_all by (rewrite Hperm; exact Hcut).
  split; [exact Hperm |]. split.
  - intros a Ha Hne r. rewrite <- !list_elem_of_In, Hperm, list_elem_of_In.
    unfold selected. rewrite Ha. apply truthy_string_nonempty in Hne.
    cbn. rewrite Hne. unfold Session.where_athlete_id. rewrite filter_In.
    rewrite list_elem_of_In.
    destruct (Session.athlete_id r) as [x |].
    + rewrite String.eqb_eq. split; intros [H1 H2]; (split; [exact H1 | congruence]).
    + split; intros [H1 H2]; discriminate.
  - intros Hnone. rewrite Hperm. unfold selected.
    destruct Hnone as [-> | ->]; reflexivity.
Qed.

(** X15: when the limit is an integer that the statement accepts
    (strictly between -2^63 and 2^63 - 1) and is negative or at least
    the number of selected sessions, the listing returns all of them,
    reordered: with a non-empty athleteId exactly the stored sessions of
    that athlete, and with no athleteId or an empty one every stored
    session. *)
Theorem sessions_list_complete (srv : Server) (d : Database) (query : SessionsQuery)
    (n : Z) :
  db srv = Some d ->
  limit_of query = Session.Integral n ->
  - 2 ^ 63 < n < 2 ^ 63 - 1 ->
  n < 0 \/ Z.of_nat (length (selected query d)) <= n ->
  exists rows,
    listed srv query = Some rows /\
    rows ≡ₚ selected query d /\
    (forall a, query_athleteId query = Some a -> a <> "" ->
       forall r, In r rows <-> In r (sessions d) /\ Session.athlete_id r = Some a) /\
    (query_athleteId query = None \/ query_athleteId query = Some "" ->
       rows ≡ₚ sessions d).
Proof. apply listed_all. Qed.

(** X16: after an analysis request with a non-empty athleteId whose
    write goes through, the unlimited listing for that athlete contains
    the new session, and everything else it lists is an earlier stored
    session of the same athlete. *)
Theorem analyze_then_list (env : Env) (srv : Server) (d : Database)
    (req : AnalyzeRequest) (result : AnalysisResult) (a : string) :
  multer srv = true ->
  db srv = Some d ->
  storage_fault env = None ->
  ~ In (uuid env) (session_ids d) ->
  analyzeVideo (request_sportKey req) (request_filePath req) (random env)
    = Js.Return result ->
  body_athleteId req = Some a -> a <> "" ->
  exists rows,
    listed (snd (post_analyze env srv req))
           (mkSessionsQuery (Some a) (Some (Session.Integral (-1))))
      = Some rows /\
    In (session_row env req result) rows /\
    (forall r, In r rows -> r <> session_row env req result ->
               In r (sessions d) /\ Session.athlete_id r = Some a).
Proof.
  intros Hm Hdb Hf Hfresh Hr Ha Hne.
  rewrite (post_analyze_stores env srv d req result Hm Hdb Hf Hfresh Hr). cbn [snd].
  set (d' := mkDatabase (athletes d) (sessions d ++ [session_row env req result])).
  destruct (listed_all (mkServer true (Some d') (console srv)) d'
              (mkSessionsQuery (Some a) (Some (Session.Integral (-1)))) (-1)
              eq_refl eq_refl)
    as (rows & Hrows & _ & Hiff & _); [lia | left; lia |].
  exists rows. split; [exact Hrows |].
  specialize (Hiff a eq_refl Hne).
  assert (Hrow : Session.athlete_id (session_row env req result) = Some a).
  { cbn. rewrite Ha. apply truthy_string_nonempty in Hne. cbn. now rewrite Hne. }
  split.
  - apply Hiff. split; [| exact Hrow]. cbn [sessions d']. apply in_or_app. right. now left.
  - intros r Hin Hother. apply Hiff in Hin as [Hin Hr']. split; [| exact Hr'].
    cbn [sessions d'] in Hin. apply in_app_or in Hin as [Hin | [Heq | []]];
      [exact Hin | congruence].
Qed.

(** ** Profiles: upsert and lookup *)

(** An accepted request whose statement runs. *)
Lemma post_profile_saves (env : Env) (srv : Server) (d : Database)
    (req : ProfileRequest) (name : string) :
  db srv = Some d ->
  Js.string_or_null (profile_name req) = Some name ->
  storage_fault env = None ->
  post_profile env srv req =
    (json (BSaved (profile_key env req) "Profile saved."),
     mkServer (multer srv)
       (Some (mkDatabase
                (Athlete.upsert (now env) (profile_key env req) name
                   (Js.number_or_null (profile_age req))
                   (Js.number_or_null (profile_height req))
                   (Js.number_or_null (profile_weight req))
                   (Js.string_or_null (profile_sport req))
                   (Js.string_or_null (profile_level req))
                   (athletes d))
                (sessions d)))
       (console srv)).
Proof.
  intros Hdb Hname Hok. unfold post_profile, requireDB, profile_key.
  now rewrite Hdb, Hname, Hok.
Qed.

(** A request that is not stored leaves the database as it was. *)
Lemma post_profile_database (env : Env) (srv : Server) (d : Database)
    (req : ProfileRequest) :
  db srv = Some d ->
  db (snd (post_profile env srv req)) = Some d \/
  exists name,
    Js.string_or_null (profile_name req) = Some name /\
    storage_fault env = None.
Proof.
  intros Hdb. unfold post_profile, requireDB. rewrite Hdb.
  destruct (Js.string_or_null (profile_name req)) as [name |]; [| left; exact Hdb].
  destruct (storage_fault env); [left; exact Hdb | right; eauto].
Qed.

Lemma upsert_lookup (t : Timestamp) (i n : string) (a h w : option Q)
    (sp lv : option string) (table : gmap string Athlete.Row) :
  Athlete.upsert t i n a h w sp lv table !! i =
    Some (Athlete.mkRow n a h w sp lv
            (match table !! i with
             | Some old => Athlete.created_at old
             | None => t
             end) t).
Proof.
  unfold Athlete.upsert. destruct (table !! i); now rewrite lookup_insert_eq.
Qed.

Lemma upsert_lookup_other (t : Timestamp) (i j n : string) (a h w : option Q)
    (sp lv : option string) (table : gmap string Athlete.Row) :
  i <> j -> Athlete.upsert t i n a h w sp lv table !! j = table !! j.
Proof.
  intros Hne. unfold Athlete.upsert. destruct (table !! i); now rewrite lookup_insert_ne.
Qed.

(** X17: an accepted profile request whose statement runs answers with
    the identifier it stored under (the given id, or the generated one
    when the id is missing or empty), and fetching that identifier
    returns the stored fields: the name, the optional fields with
    falsy values as null, updated_at the time of the request, and
    created_at the time of the request for a new profile or the
    earlier created_at for an existing one. *)
Theorem profile_then_get (env : Env) (srv : Server) (d : Database)
    (req : ProfileRequest) (name : string) :
  db srv = Some d ->
  Js.string_or_null (profile_name req) = Some name ->
  storage_fault env = None ->
  fst (post_profile env srv req) = json (BSaved (profile_key env req) "Profile saved.") /\
  fst (get_profile (snd (post_profile env srv req)) (profile_key env req)) =
    json (BAthlete (profile_key env req)
            (Athlete.mkRow name
               (Js.number_or_null (profile_age req))
               (Js.number_or_null (profile_height req))
               (Js.number_or_null (profile_weight req))
               (Js.string_or_null (profile_sport req))
               (Js.string_or_null (profile_level req))
               (match athletes d !! profile_key env req with
                | Some old => Athlete.created_at old
                | None => now env
                end)
               (now env))) /\
  (profile_id req = None \/ profile_id req = Some "" -> profile_key env req = uuid env).
Proof.
  intros Hdb Hname Hok.
  rewrite (post_profile_saves env srv d req name Hdb Hname Hok).
  split; [reflexivity |]. split.
  - unfold get_profile, requireDB. cbn [snd db athletes]. now rewrite upsert_lookup.
  - unfold profile_key. intros [-> | ->]; reflexivity.
Qed.

(** X18: a profile request without a name (missing or empty) is
    answered 400 and leaves the server as it was; one whose statement
    fails is answered 500 with the error message, is logged, and
    leaves the database as it was. *)
Theorem profile_not_stored (env : Env) (srv : Server) (d : Database)
    (req : ProfileRequest) :
  db srv = Some d ->
  (profile_name req = None \/ profile_name req = Some "" ->
   post_profile env srv req = (error 400 "name is required.", srv)) /\
  (forall name message,
     Js.string_or_null (profile_name req) = Some name ->
     storage_fault env = Some message -> message <> "" ->
     post_profile env srv req =
       (error 500 message,
        mkServer (multer srv) (Some d) (console srv ++ ["Unhandled error: " +:+ message]))).
Proof.
  intros Hdb. split.
  - intros Hname. unfold post_profile, requireDB. rewrite Hdb.
    destruct Hname as [-> | ->]; reflexivity.
  - intros name message Hname Hfault Hne.
    unfold post_profile, requireDB, error_handler, log.
    rewrite Hdb, Hname, Hfault. cbn [Js.error_message].
    apply truthy_string_nonempty in Hne. now rewrite Hne.
Qed.

(** X19: a profile request never touches the sessions, never removes
    a profile and never changes the created_at of one; profiles under
    other identifiers stay exactly as they were, and no identifier but
    the one of the request can become present. *)
Theorem profiles_kept (env : Env) (srv : Server) (d : Database) (req : ProfileRequest) :
  db srv = Some d ->
  exists d',
    db (snd (post_profile env srv req)) = Some d' /\
    sessions d' = sessions d /\
    (forall i old,
        athletes d !! i = Some old ->
        exists row,
          athletes d' !! i = Some row /\
          Athlete.created_at row = Athlete.created_at old /\
          (i <> profile_key env req -> row = old)) /\
    (forall i, athletes d !! i = None -> i <> profile_key env req ->
               athletes d' !! i = None).
Proof.
  intros Hdb.
  destruct (post_profile_database env srv d req Hdb) as [Hsame | (name & Hname & Hok)].
  - exists d. split; [exact Hsame |]. split; [reflexivity |]. split.
    + intros i old Hold. exists old. auto.
    + auto.
  - rewrite (post_profile_saves env srv d req name Hdb Hname Hok). cbn [snd db].
    eexists. split; [reflexivity |]. cbn [sessions athletes]. split; [reflexivity |]. split.
    + intros i old Hold. destruct (decide (profile_key env req = i)) as [<- | Hne].
      * rewrite upsert_lookup, Hold. eexists. split; [reflexivity |].
        split; [reflexivity | congruence].
      * rewrite upsert_lookup_other by exact Hne. exists old. auto.
    + intros i Hnone Hne. rewrite upsert_lookup_other by congruence. exact Hnone.
Qed.

(** ** Missing dependencies *)

(** X20: without a database handle the four database routes answer
    503 and change nothing, while an analysis request is still
    answered 200 with its result and changes nothing. *)
Theorem without_database (env : Env) (srv : Server) :
  db srv = None ->
  let unavailable :=
    error 503 "Database unavailable. Install better-sqlite3: npm install better-sqlite3" in
  (forall i, get_session srv i = (unavailable, srv)) /\
  (forall query, get_sessions srv query = (unavailable, srv)) /\
  (forall req, post_profile env srv req = (unavailable, srv)) /\
  (forall i, get_profile srv i = (unavailable, srv)) /\
  (forall req result,
     multer srv = true ->
     analyzeVideo (request_sportKey req) (request_filePath req) (random env)
       = Js.Return result ->
     post_analyze env srv req = (json (BAnalysis (uuid env) result), srv)).
Proof.
  intros Hdb unavailable. unfold get_session, get_sessions, post_profile, get_profile,
    requireDB. rewrite Hdb. repeat split.
  intros req result Hm Hr. unfold post_analyze, requireMulter. now rewrite Hm, Hr, Hdb.
Qed.

(** X21: without multer the module does not load: [upload] is null and
    [upload.single('video')], evaluated when the upload route is
    registered, throws a TypeError.  Every server that was loaded
    therefore has multer, and [requireMulter] passes every request on:
    its 503 answer is never given. *)
Theorem module_needs_multer (handle : option Database) (written : list string) :
  load false handle written
    = Js.Throw (Js.TypeError "Cannot read properties of null (reading 'single')") /\
  (forall multer_installed srv,
     load multer_installed handle written = Js.Return srv ->
     srv = mkServer true handle written /\
     forall next, requireMulter srv next = next).
Proof.
  split; [reflexivity |].
  intros [] srv; cbn; [| discriminate].
  intros [= <-]. split; reflexivity.
Qed.

(** ** The sport of a request *)

Lemma registry_key_nonempty (k : string) (p : SportPattern) :
  Js.own_property SPORT_PATTERNS k = Some p -> Js.truthy_string k = true.
Proof. destruct k; intros H; [vm_compute in H; discriminate H | reflexivity]. Qed.

(** X22: the response of an analysis request names the sport of the
    request when it is a registry key, with that entry's display name;
    when the sport is missing, empty, or neither a registry key nor the
    name of a member of Object.prototype, the response carries the key
    "running" and the name "Distance Running". *)
Theorem analyze_response_sport (env : Env) (srv : Server) (req : AnalyzeRequest) :
  multer srv = true ->
  (forall k p,
     body_sport req = Some k -> Js.own_property SPORT_PATTERNS k = Some p ->
     exists result,
       fst (post_analyze env srv req) = json (BAnalysis (uuid env) result) /\
       sportKey result = k /\ sport result = name p) /\
  (body_sport req = None \/ body_sport req = Some "" \/
   (exists k, body_sport req = Some k /\
              Js.own_property SPORT_PATTERNS k = None /\ Js.inherited k = false) ->
   exists result,
     fst (post_analyze env srv req) = json (BAnalysis (uuid env) result) /\
     sportKey result = "running" /\ sport result = "Distance Running").
Proof.
  intros Hm. split.
  - intros k p Hk Hp.
    assert (Hkey : request_sportKey req = k).
    { unfold request_sportKey, SPORT_PATTERNS_get.
      now rewrite Hk, (registry_key_nonempty k p Hp), Hp. }
    unfold post_analyze, requireMulter, analyzeVideo. rewrite Hm, Hkey.
    rewrite (analyze_registry_key k p _ _ _ Hp). eexists. cbn. repeat split.
  - intros Hsport.
    assert (Hkey : request_sportKey req = "running").
    { unfold request_sportKey, SPORT_PATTERNS_get.
      destruct Hsport as [-> | [-> | (k & -> & Hown & Hinh)]]; try reflexivity.
      rewrite Hown, Hinh. cbn. now rewrite andb_false_r. }
    unfold post_analyze, requireMulter, analyzeVideo. rewrite Hm, Hkey.
    rewrite (analyze_registry_key "running" _ _ _ _ eq_refl). eexists. cbn. repeat split.
Qed.

(** ** The properties at concrete inputs *)

Lemma halves_unit_draws : unit_draws Fixture.halves.
Proof. unfold unit_draws, unit_interval. cbn. repeat split; discriminate. Defined.

Lemma simulated_scores_ranges_witness :
  integer_between 60 95 (form (simulate_scores Fixture.halves)).
Proof. apply (simulated_scores_ranges Fixture.halves). exact halves_unit_draws. Defined.

Lemma simulated_metrics_ranges_witness :
  integer_between 75 105 (kneeAngle (simulate_metrics Fixture.halves)).
Proof. apply (simulated_metrics_ranges Fixture.halves). exact halves_unit_draws. Defined.

Lemma analyzeVideo_never_legs_too_straight_witness :
  exists r,
    analyzeVideo "golf" None Fixture.halves = Js.Return r /\
    ~ In MSG_KNEE_STRAIGHT (insights r).
Proof.
  eexists. split; [reflexivity |].
  apply (analyzeVideo_never_legs_too_straight "golf" None Fixture.halves);
    [exact halves_unit_draws | reflexivity].
Defined.

Lemma score_cues_never_truncated_witness :
  In MSG_TIMING_LOW (generateInsights Sample.all_60 Sample.knee_70 "Yoga").
Proof.
  apply (score_cues_never_truncated Sample.all_60 Sample.knee_70 "Yoga"). reflexivity.
Defined.

Lemma knee_warnings_exclusive_witness :
  ~ In MSG_KNEE_STRAIGHT (generateInsights Sample.all_90 Sample.knee_70 "Yoga").
Proof.
  apply (knee_warnings_exclusive Sample.all_90 Sample.knee_70 "Yoga").
  left. reflexivity.
Defined.

Lemma no_insight_iff_no_rule_witness :
  generateInsights Sample.all_70 Sample.knee_100 "Yoga" = [].
Proof.
  apply (no_insight_iff_no_rule Sample.all_70 Sample.knee_100 "Yoga").
  cbn. repeat split; discriminate.
Defined.

Lemma analyze_then_get_session_witness :
  exists result,
    fst (get_session (snd (post_analyze Sample.first_env Sample.fresh Sample.yoga_request))
                     "session-1")
      = json (BSession (session_row Sample.first_env Sample.yoga_request result)).
Proof.
  eexists.
  apply (analyze_then_get_session Sample.first_env Sample.fresh (mkDatabase ∅ [])
           Sample.yoga_request);
    [reflexivity | reflexivity | reflexivity | intros [] | reflexivity].
Defined.

Lemma sessions_append_only_witness :
  exists d',
    db (snd (post_analyze Sample.second_env Sample.after_one Sample.yoga_request)) = Some d' /\
    athletes d' = ∅.
Proof.
  destruct (sessions_append_only Sample.second_env Sample.after_one Sample.yoga_request
              (database Sample.after_one) eq_refl)
    as (d' & Hd' & Ha & _).
  exists d'. split; [exact Hd' | exact Ha].
Defined.

Lemma session_id_collision_witness :
  exists result,
    post_analyze Sample.first_env Sample.after_two Sample.yoga_request =
      (json (BAnalysis "session-1" result),
       mkServer true (Some Sample.two_sessions)
         ["DB insert failed: UNIQUE constraint failed: sessions.id"]).
Proof.
  eexists.
  apply (session_id_collision Sample.first_env Sample.after_two Sample.two_sessions
           Sample.yoga_request);
    [reflexivity | reflexivity | reflexivity | left; reflexivity | reflexivity].
Defined.

Lemma get_session_found_or_404_witness :
  fst (get_session Sample.after_two "session-9") = error 404 "Session not found.".
Proof.
  apply (get_session_found_or_404 Sample.after_two Sample.two_sessions "session-9" eq_refl).
  cbn. intros [H | [H | []]]; discriminate H.
Defined.

Lemma sessions_list_complete_witness :
  exists rows,
    listed Sample.after_two (mkSessionsQuery None None) = Some rows /\
    rows ≡ₚ sessions Sample.two_sessions.
Proof.
  destruct (sessions_list_complete Sample.after_two Sample.two_sessions
              (mkSessionsQuery None None) 20 eq_refl eq_refl)
    as (rows & Hrows & _ & _ & Hall); [lia | right; cbn; lia |].
  exists rows. split; [exact Hrows | apply Hall; now left].
Defined.

Lemma analyze_then_list_witness :
  exists result rows,
    listed (snd (post_analyze Sample.first_env Sample.fresh Sample.yoga_request))
           (mkSessionsQuery (Some "athlete-1") (Some (Session.Integral (-1))))
      = Some rows /\
    In (session_row Sample.first_env Sample.yoga_request result) rows.
Proof.
  eexists.
  destruct (analyze_then_list Sample.first_env Sample.fresh (mkDatabase ∅ [])
              Sample.yoga_request _ "athlete-1" eq_refl eq_refl eq_refl
              (fun H : In "session-1" [] => H) eq_refl eq_refl)
    as (rows & Hrows & Hin & _); [discriminate |].
  exists rows. split; [exact Hrows | exact Hin].
Defined.

Lemma profile_then_get_witness :
  fst (post_profile Sample.create_env Sample.fresh Fixture.anonymous_request)
    = json (BSaved "unused" "Profile saved.").
Proof.
  apply (profile_then_get Sample.create_env Sample.fresh (mkDatabase ∅ [])
           Fixture.anonymous_request "Sam Lee");
    reflexivity.
Defined.

Lemma profile_not_stored_witness :
  post_profile Sample.update_env Fixture.profiled Fixture.nameless_request
    = (error 400 "name is required.", Fixture.profiled).
Proof.
  apply (profile_not_stored Sample.update_env Fixture.profiled (database Fixture.profiled)
           Fixture.nameless_request eq_refl).
  right. reflexivity.
Defined.

Lemma profiles_kept_witness :
  exists d',
    db (snd (post_profile Sample.update_env Fixture.profiled Sample.age_25_request))
      = Some d' /\
    sessions d' = [].
Proof.
  destruct (profiles_kept Sample.update_env Fixture.profiled (database Fixture.profiled)
              Sample.age_25_request eq_refl)
    as (d' & Hd' & Hs & _).
  exists d'. split; [exact Hd' | exact Hs].
Defined.

Lemma without_database_witness :
  get_profile Fixture.no_database "athlete-1" =
    (error 503 "Database unavailable. Install better-sqlite3: npm install better-sqlite3",
     Fixture.no_database).
Proof. apply (without_database Sample.first_env Fixture.no_database eq_refl). Defined.

Lemma module_needs_multer_witness :
  requireMulter Sample.fresh (get_profile Sample.fresh "athlete-1")
    = get_profile Sample.fresh "athlete-1".
Proof.
  apply (proj2 (module_needs_multer (Some (mkDatabase ∅ [])) []) true Sample.fresh).
  reflexivity.
Defined.

Lemma analyze_response_sport_witness :
  exists result,
    fst (post_analyze Sample.first_env Sample.fresh
           (mkAnalyzeRequest (Some "karate") None None None))
      = json (BAnalysis "session-1" result) /\
    sportKey result = "running" /\ sport result = "Distance Running".
Proof.
  apply (analyze_response_sport Sample.first_env Sample.fresh
           (mkAnalyzeRequest (Some "karate") None None None) eq_refl).
  right. right. exists "karate". repeat split.
Defined.
